(** * target-sherpaan: the SOAP client ([target_sherpaan/client.py])

    A shallow embedding of [SherpaClient]: the URL and header handling of
    [call_soap_service], its retry decorator, and the response unwrapper
    [_parse_soap_response], followed by the properties of the specification
    that were checked against them. *)

From Stdlib Require Import String Ascii ZArith Lia.
From stdpp Require Import base option list gmap strings.

Local Open Scope string_scope.
Local Open Scope Z_scope.

(** ** Python values

    [xmltodict.parse] yields nested Python objects: [None] for an empty
    element, [str] for text, [list] for repeated children and an
    insertion-ordered [dict] for an element with children or attributes.
    The order of a [dict] is observable ([soap_body.items()]), hence the
    association list. *)

#[local] Set Warnings "-register-all".

Inductive value : Type :=
| VNone
| VStr (s : string)
| VList (l : list value)
| VDict (d : list (string * value)).

Abbreviation dict := (list (string * value)).

Record Response : Type := mkResponse {
  status_code : Z;
  text : string
}.

(** Exceptions that the modelled code can see.  [External] stands for whatever
    the XML parser or the transport raises (ExpatError, ConnectionError,
    Timeout, ...). *)
Inductive exn : Type :=
| TypeError
| AttributeError
| UnicodeEncodeError
| HTTPError (response : Response)
| RetryError (last_attempt : exn)
| External (name : string).

(** A computation that returns or raises. *)
Abbreviation result := (sum exn).

#[export] Instance result_ret : MRet result := fun _ x => inr x.
#[export] Instance result_bind : MBind result :=
  fun _ _ f m => match m with inl e => inl e | inr x => f x end.

Definition raise {A} (e : exn) : result A := inl e.

(** ** String primitives of Python used by the client *)

Module Str.

(** The double quote character written inside the f-string of the
    [SOAPAction] header. *)
Definition dquote : string := String (ascii_of_nat 34) EmptyString.

(** [needle in hay] for two [str] objects. *)
Fixpoint contains (needle hay : string) : bool :=
  String.prefix needle hay ||
  match hay with
  | EmptyString => false
  | String _ rest => contains needle rest
  end.

(** [s.endswith(suffix)]. *)
Fixpoint endswith (s suffix : string) : bool :=
  String.eqb s suffix ||
  match s with
  | EmptyString => false
  | String _ rest => endswith rest suffix
  end.

(** [s.replace(old, new)] for a non-empty [old]: occurrences are replaced
    from the left and do not overlap.  [skip] counts the characters of the
    occurrence just replaced that are still to be dropped. *)
Fixpoint replace_from (old new : string) (skip : nat) (s : string) : string :=
  match s with
  | EmptyString => EmptyString
  | String c rest =>
      match skip with
      | S k => replace_from old new k rest
      | O =>
          if String.prefix old s
          then new +:+ replace_from old new (Nat.pred (String.length old)) rest
          else String c (replace_from old new 0 rest)
      end
  end.

Definition replace (s old new : string) : string := replace_from old new 0 s.

(** [s.split(sep)[0]] for a non-empty [sep]: the part before the first
    occurrence of [sep], all of [s] when there is none. *)
Fixpoint split_head (s sep : string) : string :=
  match s with
  | EmptyString => EmptyString
  | String c rest =>
      if String.prefix sep s then EmptyString
      else String c (split_head rest sep)
  end.

(** The character [c] occurs in [s]. *)
Fixpoint has_char (c : ascii) (s : string) : bool :=
  match s with
  | EmptyString => false
  | String c' rest => Ascii.eqb c' c || has_char c rest
  end.

(** [key.lower()] for a header name.  Header names are ASCII; the letters
    A to Z move to a to z and every other character is kept. *)
Definition lower_char (c : ascii) : ascii :=
  let n := N_of_ascii c in
  if ((65 <=? n) && (n <=? 90))%N then ascii_of_N (n + 32) else c.

Fixpoint lower (s : string) : string :=
  match s with
  | EmptyString => EmptyString
  | String c rest => String (lower_char c) (lower rest)
  end.

(** All characters of [s] are ASCII. *)
Fixpoint is_ascii (s : string) : bool :=
  match s with
  | EmptyString => true
  | String c rest => (N_of_ascii c <? 128)%N && is_ascii rest
  end.

End Str.

(** ** Python object protocol on [value] *)

Module Py.

(** [bool(v)]. *)
Definition truthy (v : value) : bool :=
  match v with
  | VNone => false
  | VStr s => negb (String.eqb s "")
  | VList l => match l with [] => false | _ => true end
  | VDict d => match d with [] => false | _ => true end
  end.

(** [isinstance(v, dict)]. *)
Definition is_dict (v : value) : bool :=
  match v with VDict _ => true | _ => false end.

(** [d.get(key)] on the entries of a dict; keys are unique in a Python
    dict, the first hit is the only one. *)
Fixpoint dict_get (key : string) (d : dict) : option value :=
  match d with
  | [] => None
  | (k, v) :: rest => if String.eqb k key then Some v else dict_get key rest
  end.

(** [x == key] for a [str] key. *)
Definition eq_str (key : string) (x : value) : bool :=
  match x with VStr s => String.eqb s key | _ => false end.

(** [key in container] for a [str] key: TypeError on [None], substring test
    on a [str], element test on a [list], key test on a [dict]. *)
Definition contains (key : string) (container : value) : result bool :=
  match container with
  | VNone => raise TypeError
  | VStr s => mret (Str.contains key s)
  | VList l => mret (existsb (eq_str key) l)
  | VDict d => mret (match dict_get key d with Some _ => true | None => false end)
  end.

(** [container[key]] for a [str] key that [contains] found: only a dict
    can be indexed by a string. *)
Definition getitem (container : value) (key : string) : result value :=
  match container with
  | VDict d =>
      match dict_get key d with
      | Some v => mret v
      | None => raise (External "KeyError")
      end
  | _ => raise TypeError
  end.

(** [v.items()]. *)
Definition items (v : value) : result dict :=
  match v with
  | VDict d => mret d
  | _ => raise AttributeError
  end.

(** A [str] as the sequence of its code points, each below 0x110000.  The
    envelope is the one string the client measures, slices and encodes, so
    it is kept in this form. *)
Abbreviation pystr := (list N).

(** The [str] whose code points are the bytes of [s]; for an ASCII literal,
    that literal. *)
Fixpoint str (s : string) : pystr :=
  match s with
  | EmptyString => []
  | String c rest => N_of_ascii c :: str rest
  end.

(** The UTF-8 bytes of one code point; the surrogates U+D800 to U+DFFF have
    none. *)
Definition encode_code_point (cp : N) : result string :=
  let byte (n : N) := String (ascii_of_N n) EmptyString in
  if (cp <? 0x80)%N then mret (byte cp)
  else if (cp <? 0x800)%N then
    mret (byte (0xC0 + cp / 0x40) +:+ byte (0x80 + cp mod 0x40))%N
  else if ((0xD800 <=? cp) && (cp <=? 0xDFFF))%N then raise UnicodeEncodeError
  else if (cp <? 0x10000)%N then
    mret (byte (0xE0 + cp / 0x1000) +:+ byte (0x80 + (cp / 0x40) mod 0x40)
          +:+ byte (0x80 + cp mod 0x40))%N
  else
    mret (byte (0xF0 + cp / 0x40000) +:+ byte (0x80 + (cp / 0x1000) mod 0x40)
          +:+ byte (0x80 + (cp / 0x40) mod 0x40) +:+ byte (0x80 + cp mod 0x40))%N.

(** [s.encode('utf-8')]: the bytes of [s], or UnicodeEncodeError when [s]
    holds a surrogate. *)
Fixpoint encode_utf8 (s : pystr) : result string :=
  match s with
  | [] => mret EmptyString
  | cp :: rest =>
      head ← encode_code_point cp;
      tail ← encode_utf8 rest;
      mret (head +:+ tail)
  end.

End Py.

(** ** Session headers

    [requests.structures.CaseInsensitiveDict]: the store maps the lowered
    name to the name as last written and the value, so that lookups and
    updates do not depend on the case of the name. *)

Module Headers.

Abbreviation t := (gmap string (string * string)).

(** [headers.get(name)]. *)
Definition get (name : string) (h : t) : option string :=
  snd <$> h !! Str.lower name.

(** [headers[name] = val]. *)
Definition set (name val : string) (h : t) : t :=
  <[Str.lower name := (name, val)]> h.

End Headers.

(** ** The outside world

    The XML parser and the HTTP transport are libraries outside the
    repository.  [xmltodict.parse] returns the document as a dict or raises;
    [Session.post] is given the URL, the headers, the encoded body and the
    timeout, consumes the network (an abstract [World]) and returns a
    response or raises. *)

Class Environment : Type := {
  xmltodict_parse : string -> result dict;
  World : Type;
  session_post :
    string -> Headers.t -> string -> Z -> World -> result Response * World
}.

Record Request : Type := mkRequest {
  req_url : string;
  req_headers : Headers.t;
  req_data : string;
  req_timeout : Z
}.

Record SherpaClient : Type := mkSherpaClient {
  base_url : string;      (* self.auth.base_url *)
  timeout : Z             (* self.timeout *)
}.

Section Client.

Context `{env : Environment}.

(** *** Response unwrapper *)

Definition ENVELOPE_KEYS : list string :=
  ["soap:Envelope"; "soap12:Envelope"; "Envelope"].

Definition BODY_KEYS : list string :=
  ["soap:Body"; "soap12:Body"; "Body"].

Definition raw_response (xml_response : string) : value :=
  VDict [("raw_response", VStr xml_response)].

(** The inner loop [for body_key in [...]]: the first key that is [in] the
    envelope is indexed and the loop is left; [soap_body] keeps its value
    when no key is found. *)
Fixpoint scan_body_keys (envelope : value) (body_keys : list string)
    (soap_body : value) : result value :=
  match body_keys with
  | [] => mret soap_body
  | body_key :: rest =>
      found ← Py.contains body_key envelope;
      if (found : bool) then Py.getitem envelope body_key
      else scan_body_keys envelope rest soap_body
  end.

(** The outer loop [for key in [...]], left as soon as [soap_body] is
    truthy. *)
Fixpoint scan_envelope_keys (xml_dict : dict) (keys : list string)
    (soap_body : value) : result value :=
  match keys with
  | [] => mret soap_body
  | key :: rest =>
      match Py.dict_get key xml_dict with
      | Some envelope =>
          soap_body' ← scan_body_keys envelope BODY_KEYS soap_body;
          if Py.truthy soap_body' then mret soap_body'
          else scan_envelope_keys xml_dict rest soap_body'
      | None => scan_envelope_keys xml_dict rest soap_body
      end
  end.

(** The loop [for key, value in soap_body.items()]; [response_data] is
    [None] before the loop and is assigned at most once, just before
    [break]. *)
Fixpoint scan_items (items : dict) (response_data : value) : value :=
  match items with
  | [] => response_data
  | (key, v) :: rest =>
      match v with
      | VDict d =>
          match Py.dict_get "Result" d with
          | Some r => r
          | None =>
              match Py.dict_get "ResponseValue" d with
              | Some r => r
              | None =>
                  if Str.endswith key "Response" || Str.contains "Response" key
                  then v
                  else scan_items rest response_data
              end
          end
      | _ => scan_items rest response_data
      end
  end.

(** Lines 137-166: from the located [soap_body] to the returned object. *)
Definition unwrap_soap_body (xml_response : string) (soap_body : value)
    : result value :=
  if negb (Py.truthy soap_body) then mret (raw_response xml_response)
  else
    items ← Py.items soap_body;
    let response_data := scan_items items VNone in
    if Py.truthy response_data then mret response_data
    else mret (if Py.is_dict soap_body then soap_body
               else raw_response xml_response).

(** Lines 137-166 under the [except] clause. *)
Definition unwrap_or_raw (xml_response : string) (soap_body : value) : value :=
  match unwrap_soap_body xml_response soap_body with
  | inr v => v
  | inl _ => raw_response xml_response
  end.

(** The body of the [try] block. *)
Definition parse_soap_response_try (xml_response : string) : result value :=
  xml_dict ← xmltodict_parse xml_response;
  soap_body ← scan_envelope_keys xml_dict ENVELOPE_KEYS VNone;
  unwrap_soap_body xml_response soap_body.

(** [SherpaClient._parse_soap_response]: [except Exception] turns every
    exception of the block into the raw-text mapping.  [service_name] is
    only logged. *)
Definition _parse_soap_response (xml_response service_name : string) : value :=
  match parse_soap_response_try xml_response with
  | inr v => v
  | inl _ => raw_response xml_response
  end.

(** *** Request dispatcher

    The mutable parts of a call: the headers of the shared [Session], the
    network, and two logs kept for the statements below, the requests handed
    to [Session.post] and the durations passed to [time.sleep] by the retry
    decorator. *)

Record State : Type := mkState {
  headers : Headers.t;
  world : World;
  sent : list Request;
  slept : list Z
}.

Definition M (A : Type) : Type := State -> result A * State.

#[export] Instance M_ret : MRet M := fun _ x s => (inr x, s).
#[export] Instance M_bind : MBind M :=
  fun _ _ f m s =>
    match m s with
    | (inl e, s') => (inl e, s')
    | (inr x, s') => f x s'
    end.

(** A step that returns or raises and leaves the state alone. *)
Definition lift {A} (r : result A) : M A := fun s => (r, s).

(** [self.session.headers.update({key: val})]. *)
Definition headers_update (key val : string) : M unit :=
  fun s =>
    (inr (), mkState (Headers.set key val (headers s)) (world s) (sent s) (slept s)).

(** [self.session.post(url, data=..., timeout=...)]: the request goes out
    with the headers of the session. *)
Definition post (url data : string) (tmo : Z) : M Response :=
  fun s =>
    let '(r, w) := session_post url (headers s) data tmo (world s) in
    (r, mkState (headers s) w (sent s ++ [mkRequest url (headers s) data tmo]) (slept s)).

(** [time.sleep(seconds)]. *)
Definition sleep (seconds : Z) : M unit :=
  fun s => (inr (), mkState (headers s) (world s) (sent s) (slept s ++ [seconds])).

(** [requests.Response.raise_for_status]: HTTPError for a client error
    (400-499) or a server error (500-599), nothing otherwise. *)
Definition raise_for_status (response : Response) : M unit :=
  fun s =>
    if (400 <=? status_code response) && (status_code response <? 600)
    then (inl (HTTPError response), s)
    else (inr (), s).

(** [Session()] followed by [self.session.headers.update({...})] in
    [__init__]; [defaults] are the headers a fresh [Session] comes with. *)
Definition init_headers (defaults : Headers.t) : Headers.t :=
  Headers.set "Connection" "keep-alive"
  (Headers.set "Accept-Encoding" "gzip, deflate, br"
  (Headers.set "Accept" "*/*"
  (Headers.set "User-Agent" "PostmanRuntime/7.32.3"
  (Headers.set "Content-Type" "application/soap+xml; charset=utf-8" defaults)))).

(** The f-string of the [SOAPAction] header, quotes included. *)
Definition soap_action (service_name : string) : string :=
  Str.dquote +:+ "http://sherpa.sherpaan.nl/" +:+ service_name +:+ Str.dquote.

(** Lines 68-70. *)
Definition target_url (base : string) : string :=
  let url := Str.split_head (Str.replace base "?wsdl" "") "?" in
  if negb (Str.endswith url ".asmx") then url +:+ "/Sherpa.asmx" else url.

(** The headers and the request of an attempt started in state [s]; [data]
    is the encoded envelope. *)
Definition attempt_headers (service_name : string) (s : State) : Headers.t :=
  Headers.set "SOAPAction" (soap_action service_name) (headers s).

Definition attempt_request (self : SherpaClient)
    (service_name data : string) (s : State) : Request :=
  mkRequest (target_url (base_url self)) (attempt_headers service_name s)
    data (timeout self).

(** The requests of one attempt: none when the envelope cannot be encoded,
    since the argument of [post] is evaluated before the call. *)
Definition attempt_requests (self : SherpaClient) (service_name : string)
    (soap_envelope : Py.pystr) (s : State) : list Request :=
  match Py.encode_utf8 soap_envelope with
  | inr data => [attempt_request self service_name data s]
  | inl _ => []
  end.

(** How many requests an attempt hands to the transport. *)
Definition requests_per_attempt (soap_envelope : Py.pystr) : nat :=
  match Py.encode_utf8 soap_envelope with
  | inr _ => 1
  | inl _ => 0
  end.

(** The undecorated method body, one attempt.  The [except] clause logs and
    re-raises, so it does not show here. *)
Definition call_soap_service_once (self : SherpaClient)
    (service_name : string) (soap_envelope : Py.pystr) : M value :=
  _ ← headers_update "SOAPAction" (soap_action service_name);
  let url := target_url (base_url self) in
  data ← lift (Py.encode_utf8 soap_envelope);
  response ← post url data (timeout self);
  _ ← raise_for_status response;
  mret (_parse_soap_response (text response) service_name).

(** *** The retry decorator (tenacity) *)

(** [wait_exponential(multiplier, min, max)] at a given attempt number. *)
Definition wait_exponential (multiplier min max : Z) (attempt_number : nat) : Z :=
  let exp := 2 ^ (Z.of_nat attempt_number - 1) in
  let result := multiplier * exp in
  Z.max (Z.max 0 min) (Z.min result max).

(** What [Retrying] raises when it stops: the exception of the last attempt
    with [reraise=True], a [RetryError] that holds it otherwise. *)
Definition exhausted (reraise : bool) (last : exn) : exn :=
  if reraise then last else RetryError last.

(** [Retrying.__call__] with [stop=stop_after_attempt(n)] and the default
    [retry=retry_if_exception_type()] (every exception is retried).
    [remaining] is [n - attempt_number]; the stop condition
    [attempt_number >= n] holds when it is 0.  Between two attempts the
    decorator sleeps for [wait attempt_number]. *)
Fixpoint retrying {A} (wait : nat -> Z) (reraise : bool)
    (remaining attempt_number : nat) (fn : M A) : M A :=
  fun s =>
    match fn s with
    | (inr v, s') => (inr v, s')
    | (inl e, s') =>
        match remaining with
        | O => (inl (exhausted reraise e), s')
        | S remaining' =>
            (_ ← sleep (wait attempt_number);
             retrying wait reraise remaining' (S attempt_number) fn) s'
        end
    end.

(** [@retry(stop=stop_after_attempt(n), wait=wait)]; [reraise] is not given
    and has its default, [False]. *)
Definition retry {A} (stop_after_attempt : nat) (wait : nat -> Z) (fn : M A) : M A :=
  retrying wait false (stop_after_attempt - 1) 1 fn.

(** [SherpaClient.call_soap_service]. *)
Definition call_soap_service (self : SherpaClient)
    (service_name : string) (soap_envelope : Py.pystr) : M value :=
  retry 3 (wait_exponential 1 4 10)
    (call_soap_service_once self service_name soap_envelope).

End Client.

(** *** Log lines *)

(** Lines 76-79: the debug line for the envelope; [len] and the slice count
    code points, and a long envelope is cut before it is formatted. *)
Definition envelope_debug_line (soap_envelope : Py.pystr) : Py.pystr :=
  if Nat.ltb 2000 (length soap_envelope)
  then (Py.str "SOAP envelope (first 2000 chars): " ++ take 2000 soap_envelope)%list
  else (Py.str "SOAP envelope: " ++ soap_envelope)%list.

(** *** Body entries *)

(** An entry of the body in which the item loop finds nothing: its value is
    no mapping, or a mapping without "Result" and "ResponseValue" under a key
    that does not contain "Response". *)
Definition offers_nothing (entry : string * value) : Prop :=
  forall d, snd entry = VDict d ->
    Py.dict_get "Result" d = None /\
    Py.dict_get "ResponseValue" d = None /\
    Str.contains "Response" (fst entry) = false.

(** ** The statements of the specification, as definitions

    Definitions in this part follow the wording of the specification and are
    compared with the code above. *)

Module Spec.

(** "try keys ... in that order; take the first present". *)
Fixpoint first_present (keys : list string) (d : dict) : option value :=
  match keys with
  | [] => None
  | key :: rest =>
      match Py.dict_get key d with
      | Some v => Some v
      | None => first_present rest d
      end
  end.

(** The body entry of one envelope. *)
Definition body_of_envelope (envelope : value) : option value :=
  match envelope with
  | VDict entries => first_present BODY_KEYS entries
  | _ => None
  end.

(** Steps 2 and 3: the envelope is the first envelope key present, the body
    the first body key present in it. *)
Definition located_body (xml_dict : dict) : option value :=
  match first_present ENVELOPE_KEYS xml_dict with
  | Some envelope => body_of_envelope envelope
  | None => None
  end.

(** At most one of the envelope spellings occurs at the top of a document. *)
Definition one_envelope (xml_dict : dict) : Prop :=
  forall k1 k2, k1 ∈ ENVELOPE_KEYS -> k2 ∈ ENVELOPE_KEYS ->
    is_Some (Py.dict_get k1 xml_dict) -> is_Some (Py.dict_get k2 xml_dict) ->
    k1 = k2.

(** Every body that can be reached through an envelope spelling is falsy. *)
Definition bodies_falsy (xml_dict : dict) : Prop :=
  forall key envelope b, key ∈ ENVELOPE_KEYS ->
    Py.dict_get key xml_dict = Some envelope ->
    body_of_envelope envelope = Some b ->
    Py.truthy b = false.

(** A parsed XML document has one root element. *)
Definition single_root (xml_dict : dict) : Prop :=
  exists key v, xml_dict = [(key, v)].

(** Step 5 read literally: only the first mapping-valued entry is looked at,
    and what is found in it is the payload. *)
Definition payload_in_entry (key : string) (d : dict) : option value :=
  match Py.dict_get "Result" d with
  | Some r => Some r
  | None =>
      match Py.dict_get "ResponseValue" d with
      | Some r => Some r
      | None => if Str.contains "Response" key then Some (VDict d) else None
      end
  end.

Definition claimed_payload (body : dict) : option value :=
  match List.find (fun kv => Py.is_dict (snd kv)) body with
  | Some (key, VDict d) => payload_in_entry key d
  | _ => None
  end.

Definition claimed_unwrap (body : dict) : value :=
  match claimed_payload body with
  | Some payload => payload
  | None => VDict body
  end.

(** Step 5 as the code has it: the entry is the first mapping-valued one
    that offers a payload at all. *)
Definition offers_payload (kv : string * value) : bool :=
  match snd kv with
  | VDict d =>
      match payload_in_entry (fst kv) d with Some _ => true | None => false end
  | _ => false
  end.

Definition located_payload (body : dict) : option value :=
  match List.find offers_payload body with
  | Some (key, VDict d) => payload_in_entry key d
  | _ => None
  end.

(** Section 6 read literally: the query string is cut off and the suffix is
    the whole of "/Sherpa.asmx". *)
Definition claimed_target_url (base : string) : string :=
  let stripped := Str.split_head base "?" in
  if Str.endswith stripped "/Sherpa.asmx" then stripped
  else stripped +:+ "/Sherpa.asmx".

End Spec.

(** ** A concrete environment

    A parser that knows a handful of documents (and raises on any other
    text), and a network that plays back a script of outcomes, one per
    request. *)

Module Sample.

Definition envelope_open : string :=
  "<soap:Envelope xmlns:soap='http://www.w3.org/2003/05/soap-envelope'>".

Definition wrap (body : string) : string :=
  envelope_open +:+ body +:+ "</soap:Envelope>".

Definition in_envelope (body : value) : dict :=
  [("soap:Envelope",
    VDict [("@xmlns:soap", VStr "http://www.w3.org/2003/05/soap-envelope");
           ("soap:Body", body)])].

(** [<Result>OK</Result>]: the payload is text. *)
Definition xml_text_result : string :=
  wrap "<soap:Body><GetStatusResponse><Result>OK</Result></GetStatusResponse></soap:Body>".
Definition body_text_result : dict :=
  [("GetStatusResponse", VDict [("Result", VStr "OK")])].

(** [<Result/>]: the payload is [None]. *)
Definition xml_empty_result : string :=
  wrap "<soap:Body><GetStatusResponse><Result/></GetStatusResponse></soap:Body>".
Definition body_empty_result : dict :=
  [("GetStatusResponse", VDict [("Result", VNone)])].

(** A payload with children. *)
Definition xml_mapping_result : string :=
  wrap "<soap:Body><GetStatusResponse><Result><Status>OK</Status></Result></GetStatusResponse></soap:Body>".
Definition body_mapping_result : dict :=
  [("GetStatusResponse", VDict [("Result", VDict [("Status", VStr "OK")])])].

(** [ResponseValue] in the place of [Result]. *)
Definition xml_response_value : string :=
  wrap "<soap:Body><AddOrderResponse><ResponseValue>17</ResponseValue></AddOrderResponse></soap:Body>".
Definition body_response_value : dict :=
  [("AddOrderResponse", VDict [("ResponseValue", VStr "17")])].

(** Two body entries, the first a mapping that offers no payload. *)
Definition xml_two_entries : string :=
  wrap "<soap:Body><Info a='1'/><GetStatusResponse><Result>OK</Result></GetStatusResponse></soap:Body>".
Definition body_two_entries : dict :=
  [("Info", VDict [("@a", VStr "1")]);
   ("GetStatusResponse", VDict [("Result", VStr "OK")])].

(** [<soap:Body/>]: the body key is there, its value is [None]. *)
Definition xml_empty_body : string := wrap "<soap:Body/>".

(** A document that is no SOAP envelope. *)
Definition xml_no_envelope : string := "<html><body>down</body></html>".
Definition doc_no_envelope : dict :=
  [("html", VDict [("body", VStr "down")])].

Definition documents : list (string * dict) :=
  [(xml_text_result, in_envelope (VDict body_text_result));
   (xml_empty_result, in_envelope (VDict body_empty_result));
   (xml_mapping_result, in_envelope (VDict body_mapping_result));
   (xml_response_value, in_envelope (VDict body_response_value));
   (xml_two_entries, in_envelope (VDict body_two_entries));
   (xml_empty_body, in_envelope VNone);
   (xml_no_envelope, doc_no_envelope)].

Fixpoint parse_in (docs : list (string * dict)) (xml : string) : result dict :=
  match docs with
  | [] => raise (External "ExpatError")
  | (known, d) :: rest => if String.eqb known xml then mret d else parse_in rest xml
  end.

Definition script := list (result Response).

Definition play (url : string) (hdrs : Headers.t) (data : string)
    (tmo : Z) (w : script) : result Response * script :=
  match w with
  | [] => (raise (External "ConnectionError"), [])
  | outcome :: rest => (outcome, rest)
  end.

Definition env : Environment :=
  {| xmltodict_parse := parse_in documents; World := script; session_post := play |}.

Definition client : SherpaClient :=
  mkSherpaClient "https://sherpa.example/214/Sherpa.asmx?wsdl" 300.

Definition start (w : script) : @State env :=
  @mkState env (init_headers ∅) w [] [].

End Sample.

(** Further documents: a fault, and a response whose entry holds the data
    itself. *)

Module Sample2.

Definition xml_fault : string :=
  Sample.wrap "<soap:Body><soap:Fault><faultcode>soap:Server</faultcode></soap:Fault></soap:Body>".
Definition body_fault : dict :=
  [("soap:Fault", VDict [("faultcode", VStr "soap:Server")])].

Definition xml_direct : string :=
  Sample.wrap "<soap:Body><GetStockResponse><Item>A1</Item><Amount>3</Amount></GetStockResponse></soap:Body>".
Definition body_direct : dict :=
  [("GetStockResponse", VDict [("Item", VStr "A1"); ("Amount", VStr "3")])].

Definition documents : list (string * dict) :=
  [(xml_fault, Sample.in_envelope (VDict body_fault));
   (xml_direct, Sample.in_envelope (VDict body_direct));
   (Sample.xml_response_value, Sample.in_envelope (VDict Sample.body_response_value))].

Definition env : Environment :=
  {| xmltodict_parse := Sample.parse_in documents;
     World := Sample.script;
     session_post := Sample.play |}.

Definition start (w : Sample.script) : @State env :=
  @mkState env (init_headers ∅) w [] [].

End Sample2.

(** ** Properties of the string primitives *)

Section Strings.

Lemma prefix_refl (s : string) : String.prefix s s = true.
Proof.
  induction s as [|c s IH]; simpl; [done|].
  destruct (ascii_dec c c); [done | congruence].
Qed.

Lemma endswith_contains (s suffix : string) :
  Str.endswith s suffix = true -> Str.contains suffix s = true.
Proof.
  induction s as [|c s IH]; cbn [Str.endswith Str.contains]; intros H.
  - rewrite orb_false_r in H. apply String.eqb_eq in H. by subst.
  - apply orb_true_iff in H as [H|H].
    + apply String.eqb_eq in H. subst suffix.
      by rewrite (prefix_refl (String c s)).
    + rewrite (IH H). apply orb_true_r.
Qed.

Lemma endswith_or_contains (key needle : string) :
  Str.endswith key needle || Str.contains needle key = Str.contains needle key.
Proof.
  destruct (Str.endswith key needle) eqn:E; [|done].
  by rewrite (endswith_contains _ _ E).
Qed.

Lemma has_char_app (c : ascii) (s t : string) :
  Str.has_char c (s +:+ t) = Str.has_char c s || Str.has_char c t.
Proof.
  induction s as [|c' s IH]; simpl; [done|]. by rewrite IH, orb_assoc.
Qed.

Lemma prefix_char (c c' : ascii) (old s : string) :
  c <> c' -> String.prefix (String c old) (String c' s) = false.
Proof. intros Hne. cbn. by destruct (ascii_dec c c'). Qed.

Lemma has_char_head (c c' : ascii) (s : string) :
  Str.has_char c (String c' s) = false -> c <> c' /\ Str.has_char c s = false.
Proof.
  cbn. intros [H1 H2]%orb_false_iff. split; [|done].
  intros ->. by rewrite Ascii.eqb_refl in H1.
Qed.

(** [split(sep)[0]] holds no separator. *)
Lemma split_head_no_sep (c : ascii) (s : string) :
  Str.has_char c (Str.split_head s (String c EmptyString)) = false.
Proof.
  induction s as [|c' s IH]; [done|].
  cbn [Str.split_head]. cbn [String.prefix].
  destruct (ascii_dec c c') as [->|Hne].
  - by destruct s.
  - cbn. rewrite IH, orb_false_r. by apply Ascii.eqb_neq.
Qed.

(** Text without the separator is kept by [split(sep)[0]]. *)
Lemma split_head_app (c : ascii) (u t : string) :
  Str.has_char c u = false ->
  Str.split_head (u +:+ t) (String c EmptyString) =
    u +:+ Str.split_head t (String c EmptyString).
Proof.
  induction u as [|c' u IH]; [done|].
  intros [Hne Hu]%has_char_head.
  change (String c' u +:+ ?x) with (String c' (u +:+ x)).
  cbn [Str.split_head].
  rewrite prefix_char by done. by rewrite IH.
Qed.

(** Text without the first character of [old] is kept by [replace]. *)
Lemma replace_app (c : ascii) (old new u t : string) :
  Str.has_char c u = false ->
  Str.replace (u +:+ t) (String c old) new =
    u +:+ Str.replace t (String c old) new.
Proof.
  unfold Str.replace.
  induction u as [|c' u IH]; [done|].
  intros [Hne Hu]%has_char_head.
  change (String c' u +:+ ?x) with (String c' (u +:+ x)).
  cbn [Str.replace_from].
  rewrite prefix_char by done. by rewrite IH.
Qed.

Lemma append_empty_r (s : string) : s +:+ "" = s.
Proof.
  induction s as [|c s IH]; [done|].
  change (String c s +:+ "") with (String c (s +:+ "")). by rewrite IH.
Qed.

Lemma endswith_app (s t suffix : string) :
  Str.endswith t suffix = true -> Str.endswith (s +:+ t) suffix = true.
Proof.
  intros H. induction s as [|c s IH]; [done|].
  change (String c s +:+ t) with (String c (s +:+ t)).
  cbn [Str.endswith]. rewrite IH. apply orb_true_r.
Qed.

End Strings.

(** ** The response unwrapper *)

Section Unwrapper.

Context `{env : Environment}.

Implicit Types (xml_response service_name : string) (xml_dict body : dict).

(** An exception anywhere in the [try] block ends in the raw-text mapping. *)
Lemma parse_soap_response_raised xml_response service_name e :
  parse_soap_response_try xml_response = inl e ->
  _parse_soap_response xml_response service_name = raw_response xml_response.
Proof. unfold _parse_soap_response. by intros ->. Qed.

Lemma parse_soap_response_unfold xml_response service_name xml_dict :
  xmltodict_parse xml_response = inr xml_dict ->
  _parse_soap_response xml_response service_name =
    match scan_envelope_keys xml_dict ENVELOPE_KEYS VNone with
    | inr soap_body => unwrap_or_raw xml_response soap_body
    | inl _ => raw_response xml_response
    end.
Proof.
  intros Hp.
  unfold _parse_soap_response, parse_soap_response_try, unwrap_or_raw.
  rewrite Hp. unfold mbind, result_bind.
  by destruct (scan_envelope_keys xml_dict ENVELOPE_KEYS VNone).
Qed.

(** The inner loop on a mapping: the first body key present wins. *)
Lemma scan_body_keys_dict entries keys soap_body :
  scan_body_keys (VDict entries) keys soap_body =
    inr (default soap_body (Spec.first_present keys entries)).
Proof.
  induction keys as [|k keys IH]; cbn; [done|].
  destruct (Py.dict_get k entries) as [v|] eqn:E; cbn.
  - done.
  - apply IH.
Qed.

(** On anything but a mapping the inner loop raises or changes nothing. *)
Lemma scan_body_keys_other envelope keys soap_body v :
  Py.is_dict envelope = false ->
  scan_body_keys envelope keys soap_body = inr v -> v = soap_body.
Proof.
  intros Hd. induction keys as [|k keys IH]; cbn.
  - by intros [= <-].
  - destruct envelope as [|s|l|d]; cbn in *; try done.
    + destruct (Str.contains k s); [done | apply IH].
    + destruct (existsb (Py.eq_str k) l); [done | apply IH].
Qed.

Lemma scan_body_keys_cases envelope soap_body v :
  scan_body_keys envelope BODY_KEYS soap_body = inr v ->
  Spec.body_of_envelope envelope = Some v \/
  (Spec.body_of_envelope envelope = None /\ v = soap_body).
Proof.
  destruct (Py.is_dict envelope) eqn:Hd.
  - destruct envelope as [| | |entries]; try done.
    rewrite scan_body_keys_dict. unfold Spec.body_of_envelope.
    destruct (Spec.first_present BODY_KEYS entries) as [b|];
      intros [= <-]; auto.
  - intros H. right. split; [by destruct envelope|].
    by eapply scan_body_keys_other.
Qed.

(** A falsy body is no body. *)
Lemma unwrap_soap_body_falsy xml_response soap_body :
  Py.truthy soap_body = false ->
  unwrap_soap_body xml_response soap_body = inr (raw_response xml_response).
Proof. unfold unwrap_soap_body. by intros ->. Qed.

(** One round of the item loop on a mapping-valued entry. *)
Lemma scan_items_entry key d rest response_data :
  scan_items ((key, VDict d) :: rest) response_data =
    match Spec.payload_in_entry key d with
    | Some payload => payload
    | None => scan_items rest response_data
    end.
Proof.
  cbn [scan_items]. rewrite endswith_or_contains.
  unfold Spec.payload_in_entry.
  destruct (Py.dict_get "Result" d); [done|].
  destruct (Py.dict_get "ResponseValue" d); [done|].
  by destruct (Str.contains "Response" key).
Qed.

(** The item loop finds what [Spec.located_payload] describes. *)
Lemma scan_items_located body :
  scan_items body VNone = default VNone (Spec.located_payload body).
Proof.
  unfold Spec.located_payload.
  induction body as [|[key v] body IH]; [done|].
  destruct v as [|s|l|d]; try exact IH.
  rewrite scan_items_entry. cbn [List.find].
  unfold Spec.offers_payload at 1. cbn [fst snd].
  destruct (Spec.payload_in_entry key d) as [p|] eqn:E.
  - by rewrite E.
  - exact IH.
Qed.

(** Lines 137-166 on a non-empty mapping. *)
Lemma unwrap_soap_body_dict xml_response body :
  body <> [] ->
  unwrap_soap_body xml_response (VDict body) =
    inr (match Spec.located_payload body with
         | Some payload => if Py.truthy payload then payload else VDict body
         | None => VDict body
         end).
Proof.
  intros Hne. unfold unwrap_soap_body.
  replace (Py.truthy (VDict body)) with true by (by destruct body).
  cbn. rewrite scan_items_located.
  destruct (Spec.located_payload body) as [p|]; cbn; [|done].
  by destruct (Py.truthy p).
Qed.

(** Lines 137-166 on a truthy object that is no mapping: [.items()]
    raises. *)
Lemma unwrap_soap_body_other xml_response soap_body :
  Py.is_dict soap_body = false ->
  match unwrap_soap_body xml_response soap_body with
  | inr v => v = raw_response xml_response
  | inl _ => True
  end.
Proof.
  intros Hd. unfold unwrap_soap_body.
  destruct (Py.truthy soap_body); cbn; [|done].
  by destruct soap_body.
Qed.

Lemma unwrap_or_raw_falsy xml_response soap_body :
  Py.truthy soap_body = false ->
  unwrap_or_raw xml_response soap_body = raw_response xml_response.
Proof.
  intros H. unfold unwrap_or_raw. by rewrite unwrap_soap_body_falsy.
Qed.

(** The outer loop skips the spellings that are not in the document. *)
Lemma scan_envelope_keys_absent xml_dict keys soap_body :
  (forall key, key ∈ keys -> Py.dict_get key xml_dict = None) ->
  scan_envelope_keys xml_dict keys soap_body = inr soap_body.
Proof.
  induction keys as [|k keys IH]; intros H; cbn; [done|].
  rewrite H by apply list_elem_of_here.
  apply IH. intros key Hk. apply H. by apply list_elem_of_further.
Qed.

(** Falsy bodies never end the outer loop, and they stay falsy. *)
Lemma scan_envelope_keys_falsy xml_dict keys soap_body v :
  Py.truthy soap_body = false ->
  (forall key envelope b, key ∈ keys ->
     Py.dict_get key xml_dict = Some envelope ->
     Spec.body_of_envelope envelope = Some b -> Py.truthy b = false) ->
  scan_envelope_keys xml_dict keys soap_body = inr v ->
  Py.truthy v = false.
Proof.
  revert soap_body.
  induction keys as [|k keys IH]; intros soap_body Hsb Hall;
    cbn [scan_envelope_keys]; unfold mbind, result_bind.
  - by intros [= <-].
  - assert (Hrest : forall key envelope b, key ∈ keys ->
              Py.dict_get key xml_dict = Some envelope ->
              Spec.body_of_envelope envelope = Some b -> Py.truthy b = false).
    { intros key envelope b Hk. apply Hall. by apply list_elem_of_further. }
    destruct (Py.dict_get k xml_dict) as [envelope|] eqn:Hget; [|by apply IH].
    destruct (scan_body_keys envelope BODY_KEYS soap_body) as [e|sb'] eqn:Hscan;
      [done|].
    assert (Hsb' : Py.truthy sb' = false).
    { destruct (scan_body_keys_cases _ _ _ Hscan) as [Hb|[_ ->]]; [|done].
      eapply Hall; [apply list_elem_of_here | exact Hget | exact Hb]. }
    rewrite Hsb'. by apply IH.
Qed.

(** What the loops leave when a single envelope spelling is present. *)
Lemma scan_single_envelope xml_response envelope :
  match scan_body_keys envelope BODY_KEYS VNone with
  | inr soap_body => unwrap_or_raw xml_response soap_body
  | inl _ => raw_response xml_response
  end =
  match Spec.body_of_envelope envelope with
  | Some soap_body => unwrap_or_raw xml_response soap_body
  | None => raw_response xml_response
  end.
Proof.
  destruct (scan_body_keys envelope BODY_KEYS VNone) as [e|v] eqn:Hscan.
  - destruct envelope as [| | |entries]; try done.
    by rewrite scan_body_keys_dict in Hscan.
  - destruct (scan_body_keys_cases _ _ _ Hscan) as [->|[-> ->]]; [done|].
    by apply unwrap_or_raw_falsy.
Qed.

Lemma single_root_one_envelope xml_dict :
  Spec.single_root xml_dict -> Spec.one_envelope xml_dict.
Proof.
  intros (key & v & ->) k1 k2 _ _ [v1 H1] [v2 H2]. cbn in *.
  destruct (String.eqb_spec key k1); [|done].
  destruct (String.eqb_spec key k2); [|done].
  congruence.
Qed.

#[local] Ltac single_envelope e :=
  rewrite <- scan_single_envelope; unfold mbind, result_bind;
  destruct (scan_body_keys e BODY_KEYS VNone) as [|?sb]; [done|];
  by destruct (Py.truthy _).

(** C5: the envelope is looked up under "soap:Envelope", "soap12:Envelope",
    "Envelope" in that order and the body within it under "soap:Body",
    "soap12:Body", "Body" in that order, the first key present being taken
    each time; when no body is found this way the raw-text mapping is
    returned, otherwise the unwrapper goes on with that body.  A parsed
    document has one root, so at most one envelope spelling is present. *)
Theorem C5_envelope_and_body_lookup xml_response service_name xml_dict :
  xmltodict_parse xml_response = inr xml_dict ->
  Spec.one_envelope xml_dict ->
  _parse_soap_response xml_response service_name =
    match Spec.located_body xml_dict with
    | Some soap_body => unwrap_or_raw xml_response soap_body
    | None => raw_response xml_response
    end.
Proof.
  intros Hp Hone.
  rewrite (parse_soap_response_unfold _ _ _ Hp).
  unfold Spec.located_body, ENVELOPE_KEYS.
  assert (Hin : forall k, k ∈ ENVELOPE_KEYS ->
            forall k', k' ∈ ENVELOPE_KEYS -> k <> k' ->
            is_Some (Py.dict_get k xml_dict) -> Py.dict_get k' xml_dict = None).
  { intros k Hk k' Hk' Hne Hs.
    destruct (Py.dict_get k' xml_dict) eqn:E; [|done].
    destruct Hne. apply Hone; eauto. }
  assert (H1 : "soap:Envelope" ∈ ENVELOPE_KEYS) by repeat constructor.
  assert (H2 : "soap12:Envelope" ∈ ENVELOPE_KEYS) by repeat constructor.
  assert (H3 : "Envelope" ∈ ENVELOPE_KEYS) by repeat constructor.
  cbn [scan_envelope_keys Spec.first_present].
  destruct (Py.dict_get "soap:Envelope" xml_dict) as [e1|] eqn:E1.
  { rewrite (Hin _ H1 _ H2), (Hin _ H1 _ H3) by (done || eauto).
    single_envelope e1. }
  destruct (Py.dict_get "soap12:Envelope" xml_dict) as [e2|] eqn:E2.
  { rewrite (Hin _ H2 _ H3) by (done || eauto). single_envelope e2. }
  destruct (Py.dict_get "Envelope" xml_dict) as [e3|] eqn:E3.
  { single_envelope e3. }
  done.
Qed.

(** C10: when every body reached through an envelope key is falsy (an empty
    [<soap:Body/>] parses to [None]), the body counts as not found and the
    raw-text mapping is returned; the presence of the key is not enough. *)
Theorem C10_falsy_body_is_not_found xml_response service_name xml_dict :
  xmltodict_parse xml_response = inr xml_dict ->
  Spec.bodies_falsy xml_dict ->
  _parse_soap_response xml_response service_name = raw_response xml_response.
Proof.
  intros Hp Hall.
  rewrite (parse_soap_response_unfold _ _ _ Hp).
  destruct (scan_envelope_keys xml_dict ENVELOPE_KEYS VNone) as [e|v] eqn:Hscan;
    [done|].
  apply unwrap_or_raw_falsy.
  by eapply (scan_envelope_keys_falsy xml_dict ENVELOPE_KEYS VNone).
Qed.

(** The whole unwrapper, once the loops have left a non-empty mapping. *)
Lemma parse_soap_response_of_body xml_response service_name xml_dict body :
  xmltodict_parse xml_response = inr xml_dict ->
  scan_envelope_keys xml_dict ENVELOPE_KEYS VNone = inr (VDict body) ->
  body <> [] ->
  _parse_soap_response xml_response service_name =
    match Spec.located_payload body with
    | Some payload => if Py.truthy payload then payload else VDict body
    | None => VDict body
    end.
Proof.
  intros Hp Hscan Hne.
  rewrite (parse_soap_response_unfold _ _ _ Hp), Hscan.
  unfold unwrap_or_raw. by rewrite unwrap_soap_body_dict.
Qed.

(** The loops on the usual chain "soap:Envelope" / "soap:Body". *)
Lemma scan_envelope_keys_chain xml_dict envelope soap_body :
  Py.dict_get "soap:Envelope" xml_dict = Some (VDict envelope) ->
  Py.dict_get "soap:Body" envelope = Some soap_body ->
  Py.truthy soap_body = true ->
  scan_envelope_keys xml_dict ENVELOPE_KEYS VNone = inr soap_body.
Proof.
  intros He Hb Ht. unfold ENVELOPE_KEYS. cbn [scan_envelope_keys].
  rewrite He, scan_body_keys_dict. unfold BODY_KEYS.
  cbn [Spec.first_present]. rewrite Hb. cbn. by rewrite Ht.
Qed.

(** Entries that are no mappings are passed over. *)
Lemma located_payload_skip pre body :
  Forall (fun kv => Py.is_dict (snd kv) = false) pre ->
  Spec.located_payload (pre ++ body) = Spec.located_payload body.
Proof.
  unfold Spec.located_payload.
  induction 1 as [|[key v] pre Hv _ IH]; [done|].
  cbn [app List.find]. unfold Spec.offers_payload at 1.
  cbn in Hv. destruct v; try done; exact IH.
Qed.

Lemma located_payload_result key d rest r :
  Py.dict_get "Result" d = Some r ->
  Spec.located_payload ((key, VDict d) :: rest) = Some r.
Proof.
  intros Hr. unfold Spec.located_payload. cbn [List.find].
  assert (Hp : Spec.payload_in_entry key d = Some r)
    by (unfold Spec.payload_in_entry; by rewrite Hr).
  unfold Spec.offers_payload. cbn [fst snd]. by rewrite Hp.
Qed.

(** The chain of C1 at the level of the unwrapper. *)
Lemma parse_soap_response_result xml_response service_name xml_dict
    (envelope body pre : dict) (key : string) (d rest : dict) (r : value) :
  xmltodict_parse xml_response = inr xml_dict ->
  Py.dict_get "soap:Envelope" xml_dict = Some (VDict envelope) ->
  Py.dict_get "soap:Body" envelope = Some (VDict body) ->
  body = (pre ++ (key, VDict d) :: rest)%list ->
  Forall (fun kv => Py.is_dict (snd kv) = false) pre ->
  Py.dict_get "Result" d = Some r ->
  _parse_soap_response xml_response service_name =
    if Py.truthy r then r else VDict body.
Proof.
  intros Hp He Hb Hbody Hpre Hr.
  assert (Hne : body <> []) by (subst body; by destruct pre).
  rewrite (parse_soap_response_of_body _ _ xml_dict body Hp); [|
    apply (scan_envelope_keys_chain _ envelope); [done | done | by destruct body] |
    done].
  subst body.
  by rewrite (located_payload_skip _ _ Hpre), (located_payload_result _ _ _ _ Hr).
Qed.

(** C6 (amended): on a mapping-valued body the entries are scanned in order;
    the first mapping-valued entry that has a key "Result", else a key
    "ResponseValue", else an own key containing "Response" supplies the
    payload (the value under that key, or the whole entry value); a truthy
    payload is returned, and the body mapping itself is returned unchanged
    when the payload is falsy or no entry supplies one. *)
Theorem C6_payload_lookup xml_response service_name xml_dict body :
  xmltodict_parse xml_response = inr xml_dict ->
  scan_envelope_keys xml_dict ENVELOPE_KEYS VNone = inr (VDict body) ->
  body <> [] ->
  _parse_soap_response xml_response service_name =
    match Spec.located_payload body with
    | Some payload => if Py.truthy payload then payload else VDict body
    | None => VDict body
    end.
Proof. apply parse_soap_response_of_body. Qed.

(** C9: a payload found by the scan of the body (under "Result" or
    "ResponseValue", or the value of a Response-keyed entry) that is falsy is
    dropped and the whole body mapping is returned; a truthy body that is no
    mapping ends in the raw-text mapping. *)
Theorem C9_falsy_payload_discarded xml_response service_name xml_dict soap_body :
  xmltodict_parse xml_response = inr xml_dict ->
  scan_envelope_keys xml_dict ENVELOPE_KEYS VNone = inr soap_body ->
  Py.truthy soap_body = true ->
  (forall body payload,
     soap_body = VDict body ->
     Spec.located_payload body = Some payload ->
     Py.truthy payload = false ->
     _parse_soap_response xml_response service_name = VDict body) /\
  (Py.is_dict soap_body = false ->
   _parse_soap_response xml_response service_name = raw_response xml_response).
Proof.
  intros Hp Hscan Ht. split.
  - intros body payload -> Hpay Hfalsy.
    rewrite (parse_soap_response_of_body _ _ xml_dict body Hp Hscan);
      [|by destruct body].
    by rewrite Hpay, Hfalsy.
  - intros Hd. rewrite (parse_soap_response_unfold _ _ _ Hp), Hscan.
    unfold unwrap_or_raw.
    pose proof (unwrap_soap_body_other xml_response soap_body Hd) as H.
    by destruct (unwrap_soap_body xml_response soap_body).
Qed.

End Unwrapper.

(** ** The retry decorator *)

Section Retrying.

Context `{env : Environment} {A : Type}.
Variables (fn : M A) (wait : nat -> Z) (reraise : bool) (per_attempt : nat).

(** One attempt hands a fixed number of requests to the transport and does
    not sleep. *)
Hypothesis fn_sent :
  forall s, length (sent (snd (fn s))) = (length (sent s) + per_attempt)%nat.
Hypothesis fn_slept : forall s, slept (snd (fn s)) = slept s.

Lemma retrying_outcome remaining attempt_number s :
  let r := fst (retrying wait reraise remaining attempt_number fn s) in
  let s' := snd (retrying wait reraise remaining attempt_number fn s) in
  exists attempts : nat,
    (1 <= attempts <= S remaining)%nat /\
    length (sent s') = (length (sent s) + attempts * per_attempt)%nat /\
    slept s' = (slept s ++ map wait (seq attempt_number (attempts - 1)))%list /\
    ((exists v s0, fn s0 = (inr v, s') /\ r = inr v) \/
     (attempts = S remaining /\
      exists e s0, fn s0 = (inl e, s') /\ r = inl (exhausted reraise e))).
Proof.
  revert attempt_number s.
  induction remaining as [|remaining IH]; intros k s; cbn [retrying].
  - pose proof (fn_sent s) as Hs. pose proof (fn_slept s) as Hz.
    destruct (fn s) as [[e|v] s1] eqn:Hfn; cbn [fst snd] in *; exists 1%nat;
      (split; [lia|]); (split; [lia|]);
      (split; [by rewrite Hz, app_nil_r|]); [right | left]; eauto 6.
  - pose proof (fn_sent s) as Hs. pose proof (fn_slept s) as Hz.
    destruct (fn s) as [[e|v] s1] eqn:Hfn; cbn [fst snd] in *.
    + unfold mbind, M_bind, sleep. cbn [fst snd].
      set (s2 := mkState _ _ _ _).
      destruct (IH (S k) s2) as (n & Hn & Hsent & Hslept & Hout).
      exists (S n). split; [lia|]. split.
      { rewrite Hsent. subst s2. cbn [sent]. lia. }
      split.
      { rewrite Hslept. subst s2. cbn [slept]. rewrite Hz.
        replace (S n - 1)%nat with (S (n - 1)) by lia.
        replace (n - 1)%nat with (Nat.pred n) by lia.
        cbn [seq map]. by rewrite <- app_assoc. }
      destruct Hout as [Hok | [-> Hfail]]; [by left | right; by split].
    + exists 1%nat. split; [lia|]. split; [lia|].
      split; [by rewrite Hz, app_nil_r|]. left; eauto.
Qed.

End Retrying.


(** ** The request dispatcher *)

Section Dispatcher.

Context `{env : Environment}.

Implicit Types (self : SherpaClient) (service_name data : string)
  (soap_envelope : Py.pystr) (s : State).

(** One attempt, step by step. *)
Lemma call_soap_service_once_run self service_name soap_envelope s :
  call_soap_service_once self service_name soap_envelope s =
    let h := attempt_headers service_name s in
    match Py.encode_utf8 soap_envelope with
    | inl e => (inl e, mkState h (world s) (sent s) (slept s))
    | inr data =>
        let log := (sent s ++ [attempt_request self service_name data s])%list in
        match session_post (target_url (base_url self)) h data
                (timeout self) (world s) with
        | (inl e, w) => (inl e, mkState h w log (slept s))
        | (inr response, w) =>
            if (400 <=? status_code response) && (status_code response <? 600)
            then (inl (HTTPError response), mkState h w log (slept s))
            else (inr (_parse_soap_response (text response) service_name),
                  mkState h w log (slept s))
        end
    end.
Proof.
  unfold call_soap_service_once, mbind, M_bind, headers_update, lift, post,
    raise_for_status, mret, M_ret, attempt_request, attempt_headers.
  cbn [headers world sent slept].
  destruct (Py.encode_utf8 soap_envelope) as [e|data]; [done|].
  cbn [headers world sent slept].
  destruct (session_post _ _ _ _ _) as [[e|response] w]; [done|].
  cbn [status_code].
  by destruct ((400 <=? status_code response) && (status_code response <? 600)).
Qed.

Lemma call_soap_service_once_state self service_name soap_envelope s :
  let s' := snd (call_soap_service_once self service_name soap_envelope s) in
  headers s' = attempt_headers service_name s /\
  sent s' = (sent s ++ attempt_requests self service_name soap_envelope s)%list /\
  slept s' = slept s.
Proof.
  rewrite call_soap_service_once_run. unfold attempt_requests. cbn zeta.
  destruct (Py.encode_utf8 soap_envelope) as [e|data];
    [by rewrite app_nil_r|].
  destruct (session_post _ _ _ _ _) as [[e|response] w]; [done|].
  by destruct ((400 <=? status_code response) && (status_code response <? 600)).
Qed.

Lemma call_soap_service_once_sent self service_name soap_envelope s :
  length (sent (snd (call_soap_service_once self service_name soap_envelope s))) =
    (length (sent s) + requests_per_attempt soap_envelope)%nat.
Proof.
  destruct (call_soap_service_once_state self service_name soap_envelope s)
    as (_ & -> & _).
  rewrite length_app. unfold attempt_requests, requests_per_attempt.
  by destruct (Py.encode_utf8 soap_envelope).
Qed.

Lemma call_soap_service_once_slept self service_name soap_envelope s :
  slept (snd (call_soap_service_once self service_name soap_envelope s)) = slept s.
Proof.
  by destruct (call_soap_service_once_state self service_name soap_envelope s)
    as (_ & _ & ->).
Qed.

Lemma attempt_headers_again service_name s s' :
  headers s' = attempt_headers service_name s ->
  attempt_headers service_name s' = attempt_headers service_name s.
Proof.
  unfold attempt_headers, Headers.set. intros ->. apply insert_insert_eq.
Qed.

(** Whatever the number of attempts, the session ends with the headers of
    the first attempt and every request went out with them, to the same
    URL and with the same body. *)
Lemma retrying_trace self service_name soap_envelope wait reraise remaining
    k s0 s :
  headers s = headers s0 \/ headers s = attempt_headers service_name s0 ->
  let s' := snd (retrying wait reraise remaining k
                   (call_soap_service_once self service_name soap_envelope) s) in
  headers s' = attempt_headers service_name s0 /\
  exists requests,
    sent s' = (sent s ++ requests)%list /\
    Forall (fun req => req ∈ attempt_requests self service_name soap_envelope s0)
      requests.
Proof.
  intros Hh.
  assert (Hhd : attempt_headers service_name s = attempt_headers service_name s0).
  { destruct Hh as [Hh|Hh]; [unfold attempt_headers; by rewrite Hh|].
    by apply attempt_headers_again. }
  clear Hh. revert k s Hhd.
  induction remaining as [|remaining IH]; intros k s Hhd; cbn [retrying];
    destruct (call_soap_service_once_state self service_name soap_envelope s)
      as (H1 & H2 & H3);
    assert (Hreq : attempt_requests self service_name soap_envelope s =
                   attempt_requests self service_name soap_envelope s0)
      by (unfold attempt_requests, attempt_request; by rewrite Hhd);
    assert (Hall : Forall
              (fun req => req ∈ attempt_requests self service_name soap_envelope s0)
              (attempt_requests self service_name soap_envelope s0))
      by (by apply Forall_forall);
    destruct (call_soap_service_once self service_name soap_envelope s)
      as [[e|v] s1]; cbn [fst snd] in *;
    try (split; [congruence|];
         exists (attempt_requests self service_name soap_envelope s0);
         split; [congruence | done]).
  unfold mbind, M_bind, sleep. cbn [fst snd].
  set (s2 := mkState _ _ _ _).
  assert (Hh2 : headers s2 = attempt_headers service_name s0)
    by (subst s2; cbn [headers]; congruence).
  destruct (IH (S k) s2) as (Hfin & requests & Hsent & Hrest).
  { by apply attempt_headers_again. }
  split; [done|].
  exists (attempt_requests self service_name soap_envelope s0 ++ requests)%list.
  split; [|by apply Forall_app].
  rewrite Hsent. subst s2. cbn [sent]. rewrite H2, Hreq.
  by rewrite <- app_assoc.
Qed.

(** A successful first attempt is the whole call. *)
Lemma retrying_first_success {A} (fn : M A) wait reraise remaining k s v s' :
  fn s = (inr v, s') -> retrying wait reraise remaining k fn s = (inr v, s').
Proof. intros H. destruct remaining; cbn [retrying]; by rewrite H. Qed.

(** The attempts, requests and sleeps of a call. *)
Lemma call_soap_service_outcome self service_name soap_envelope s :
  let r := fst (call_soap_service self service_name soap_envelope s) in
  let s' := snd (call_soap_service self service_name soap_envelope s) in
  exists attempts : nat,
    (1 <= attempts <= 3)%nat /\
    length (sent s') =
      (length (sent s) + attempts * requests_per_attempt soap_envelope)%nat /\
    slept s' =
      (slept s ++ map (wait_exponential 1 4 10) (seq 1 (attempts - 1)))%list /\
    ((exists v s0,
        call_soap_service_once self service_name soap_envelope s0 = (inr v, s') /\
        r = inr v) \/
     (attempts = 3%nat /\
      exists e s0,
        call_soap_service_once self service_name soap_envelope s0 = (inl e, s') /\
        r = inl (RetryError e))).
Proof.
  exact (retrying_outcome
           (call_soap_service_once self service_name soap_envelope)
           (wait_exponential 1 4 10) false (requests_per_attempt soap_envelope)
           (call_soap_service_once_sent self service_name soap_envelope)
           (call_soap_service_once_slept self service_name soap_envelope)
           2%nat 1%nat s).
Qed.

Lemma call_soap_service_trace self service_name soap_envelope s :
  let s' := snd (call_soap_service self service_name soap_envelope s) in
  headers s' = attempt_headers service_name s /\
  exists requests,
    sent s' = (sent s ++ requests)%list /\
    Forall (fun req => req ∈ attempt_requests self service_name soap_envelope s)
      requests.
Proof.
  exact (retrying_trace self service_name soap_envelope
           (wait_exponential 1 4 10) false 2 1 s s (or_introl eq_refl)).
Qed.

(** C1 (amended): when the envelope has been encoded and the transport
    answers with status 200, and the parsed text has "soap:Envelope" /
    "soap:Body" leading to a mapping whose first mapping-valued entry
    contains the key "Result", the unwrapper, and with it the call, returns
    exactly the value stored under "Result" when that value is truthy, and
    the body mapping when it is empty or null. *)
Theorem C1_result_returned self service_name soap_envelope data s w xml_response
    xml_dict (envelope body pre : dict) (key : string) (d rest : dict)
    (r : value) :
  Py.encode_utf8 soap_envelope = inr data ->
  session_post (target_url (base_url self)) (attempt_headers service_name s)
    data (timeout self) (world s) = (inr (mkResponse 200 xml_response), w) ->
  xmltodict_parse xml_response = inr xml_dict ->
  Py.dict_get "soap:Envelope" xml_dict = Some (VDict envelope) ->
  Py.dict_get "soap:Body" envelope = Some (VDict body) ->
  body = (pre ++ (key, VDict d) :: rest)%list ->
  Forall (fun kv => Py.is_dict (snd kv) = false) pre ->
  Py.dict_get "Result" d = Some r ->
  _parse_soap_response xml_response service_name =
    (if Py.truthy r then r else VDict body) /\
  fst (call_soap_service self service_name soap_envelope s) =
    inr (if Py.truthy r then r else VDict body).
Proof.
  intros Henc Hpost Hp He Hb Hbody Hpre Hr.
  pose proof (parse_soap_response_result _ service_name _ _ _ _ _ _ _ _
                Hp He Hb Hbody Hpre Hr) as Hres.
  split; [done|].
  unfold call_soap_service, retry.
  pose proof (call_soap_service_once_run self service_name soap_envelope s) as Hrun.
  cbn zeta in Hrun. rewrite Henc, Hpost in Hrun. cbn in Hrun.
  rewrite Hres in Hrun.
  by rewrite (retrying_first_success _ _ _ _ _ _ _ _ Hrun).
Qed.


(** C4 (amended): an attempt whose response carries a client or server error
    status (400 to 599) raises an HTTPError, whatever the body; a response
    with any other status does not raise, its text is unwrapped and
    returned. *)
Theorem C4_error_status_raises self service_name soap_envelope data s response w :
  Py.encode_utf8 soap_envelope = inr data ->
  session_post (target_url (base_url self)) (attempt_headers service_name s)
    data (timeout self) (world s) = (inr response, w) ->
  (400 <= status_code response < 600 ->
   fst (call_soap_service_once self service_name soap_envelope s) =
     inl (HTTPError response)) /\
  (~ 400 <= status_code response < 600 ->
   fst (call_soap_service_once self service_name soap_envelope s) =
     inr (_parse_soap_response (text response) service_name)).
Proof.
  intros Henc Hpost. rewrite call_soap_service_once_run. cbn zeta.
  rewrite Henc, Hpost.
  split; intros Hst.
  - replace ((400 <=? status_code response) && (status_code response <? 600))
      with true; [done|].
    symmetry. apply andb_true_iff. split; [apply Z.leb_le | apply Z.ltb_lt]; lia.
  - destruct ((400 <=? status_code response) && (status_code response <? 600))
      eqn:E; [|done].
    apply andb_true_iff in E as [H1%Z.leb_le H2%Z.ltb_lt]. lia.
Qed.

(** A call with an envelope that can be encoded sends at least one
    request. *)
Lemma call_sends_request self service_name soap_envelope data s :
  Py.encode_utf8 soap_envelope = inr data ->
  (length (sent s) <
   length (sent (snd (call_soap_service self service_name soap_envelope s))))%nat.
Proof.
  intros Henc.
  destruct (call_soap_service_outcome self service_name soap_envelope s)
    as (attempts & Hn & Hsent & _).
  unfold requests_per_attempt in Hsent. rewrite Henc in Hsent. lia.
Qed.

(** The URL of lines 68-70 before the suffix is added. *)
Lemma stripped_plain (u : string) :
  Str.has_char "?" u = false ->
  Str.split_head (Str.replace u "?wsdl" "") "?" = u.
Proof.
  intros Hu.
  rewrite <- (append_empty_r u) at 1.
  rewrite (replace_app "?" "wsdl" "" u "" Hu).
  rewrite (split_head_app "?" u _ Hu).
  apply append_empty_r.
Qed.

Lemma stripped_wsdl (u : string) :
  Str.has_char "?" u = false ->
  Str.split_head (Str.replace (u +:+ "?wsdl") "?wsdl" "") "?" = u.
Proof.
  intros Hu.
  rewrite (replace_app "?" "wsdl" "" u _ Hu).
  rewrite (split_head_app "?" u _ Hu).
  apply append_empty_r.
Qed.

Lemma stripped_query (u q : string) :
  Str.has_char "?" u = false ->
  String.prefix "wsdl" q = false ->
  Str.split_head (Str.replace (u +:+ "?" +:+ q) "?wsdl" "") "?" = u.
Proof.
  intros Hu Hq.
  rewrite (replace_app "?" "wsdl" "" u _ Hu).
  rewrite (split_head_app "?" u _ Hu).
  change ("?" +:+ q) with (String "?" q).
  unfold Str.replace. cbn [Str.replace_from].
  replace (String.prefix "?wsdl" (String "?" q)) with false
    by (symmetry; exact Hq).
  cbn [Str.split_head String.prefix]. cbn.
  destruct (Str.replace_from "?wsdl" "" 0 q); apply append_empty_r.
Qed.

(** C7 (amended): for a base URL without query string, with the query
    "?wsdl", or with a query string that does not start with "wsdl", every
    POST of a call goes to the base URL without its query string, with
    "/Sherpa.asmx" appended if and only if that query-stripped base does not
    already end in ".asmx"; there is such a POST whenever the envelope can
    be encoded.  The target URL never holds a "?". *)
Theorem C7_target_url self service_name soap_envelope s (u q : string) :
  let base := base_url self in
  let s' := snd (call_soap_service self service_name soap_envelope s) in
  Str.has_char "?" u = false ->
  base = u \/ base = u +:+ "?wsdl" \/
    (base = u +:+ "?" +:+ q /\ String.prefix "wsdl" q = false) ->
  (exists requests,
     sent s' = (sent s ++ requests)%list /\
     (forall data, Py.encode_utf8 soap_envelope = inr data -> requests <> []) /\
     Forall (fun req => req_url req = target_url base) requests) /\
  Str.has_char "?" (target_url base) = false /\
  (Str.endswith u ".asmx" = true -> target_url base = u) /\
  (Str.endswith u ".asmx" = false -> target_url base = u +:+ "/Sherpa.asmx").
Proof.
  intros base s' Hu Hbase.
  assert (Hs : Str.split_head (Str.replace base "?wsdl" "") "?" = u).
  { destruct Hbase as [->|[->|[-> Hq]]];
      [by apply stripped_plain | by apply stripped_wsdl | by apply stripped_query]. }
  assert (Hurl : target_url base =
                 if Str.endswith u ".asmx" then u else u +:+ "/Sherpa.asmx").
  { unfold target_url. rewrite Hs. by destruct (Str.endswith u ".asmx"). }
  repeat split.
  - subst s'.
    destruct (call_soap_service_trace self service_name soap_envelope s)
      as (_ & requests & Hsent & Hall).
    exists requests. split; [done|]. split.
    + intros data Henc ->.
      pose proof (call_sends_request self service_name soap_envelope data s Henc)
        as Hlen.
      rewrite Hsent, app_nil_r in Hlen. lia.
    + eapply Forall_impl; [exact Hall|]. intros req Hreq.
      unfold attempt_requests in Hreq.
      destruct (Py.encode_utf8 soap_envelope);
        [by apply elem_of_nil in Hreq|].
      by apply list_elem_of_singleton in Hreq as ->.
  - rewrite Hurl.
    destruct (Str.endswith u ".asmx"); [done|].
    by rewrite has_char_app, Hu.
  - rewrite Hurl. by intros ->.
  - rewrite Hurl. by intros ->.
Qed.

(** Lookups in the headers after an update. *)
Lemma headers_get_set name val h :
  Headers.get name (Headers.set name val h) = Some val.
Proof. unfold Headers.get, Headers.set. by rewrite lookup_insert_eq. Qed.

Lemma headers_get_set_other name name' val (h : Headers.t) :
  Str.lower name' <> Str.lower name ->
  Headers.get name' (Headers.set name val h) = Headers.get name' h.
Proof.
  intros Hne. unfold Headers.get, Headers.set.
  by rewrite lookup_insert_ne.
Qed.

(** C8: after a call for service S the session header "SOAPAction" is the
    quoted string "http://sherpa.sherpaan.nl/S", every request of the call
    went out with the headers the session has after the call, and every
    header whose (ASCII) name is not a spelling of "SOAPAction" is what it
    was before the call; in particular the five headers set at construction
    keep their values. *)
Theorem C8_soap_action_header self service_name soap_envelope s :
  let s' := snd (call_soap_service self service_name soap_envelope s) in
  Headers.get "SOAPAction" (headers s') =
    Some (Str.dquote +:+ "http://sherpa.sherpaan.nl/" +:+ service_name +:+ Str.dquote) /\
  (forall name, Str.is_ascii name = true -> Str.lower name <> "soapaction" ->
     Headers.get name (headers s') = Headers.get name (headers s)) /\
  (exists requests,
     sent s' = (sent s ++ requests)%list /\
     Forall (fun req => req_headers req = headers s') requests) /\
  (forall defaults, headers s = init_headers defaults ->
     Headers.get "Content-Type" (headers s') =
       Some "application/soap+xml; charset=utf-8" /\
     Headers.get "User-Agent" (headers s') = Some "PostmanRuntime/7.32.3" /\
     Headers.get "Accept" (headers s') = Some "*/*" /\
     Headers.get "Accept-Encoding" (headers s') = Some "gzip, deflate, br" /\
     Headers.get "Connection" (headers s') = Some "keep-alive").
Proof.
  intros s'. subst s'.
  destruct (call_soap_service_trace self service_name soap_envelope s)
    as (Hh & requests & Hsent & Hall).
  rewrite Hh. unfold attempt_headers.
  assert (Hframe : forall name, Str.lower name <> "soapaction" ->
            Headers.get name
              (Headers.set "SOAPAction" (soap_action service_name) (headers s)) =
            Headers.get name (headers s)).
  { intros name Hne. by apply headers_get_set_other. }
  split; [apply headers_get_set|]. split; [by intros name _; apply Hframe|].
  split.
  - exists requests. split; [done|].
    eapply Forall_impl; [exact Hall|]. intros req Hreq.
    unfold attempt_requests in Hreq.
    destruct (Py.encode_utf8 soap_envelope);
      [by apply elem_of_nil in Hreq|].
    by apply list_elem_of_singleton in Hreq as ->.
  - intros defaults Hd. rewrite !Hframe by done. rewrite Hd.
    unfold init_headers.
    repeat split;
      repeat (first [ apply headers_get_set
                    | rewrite headers_get_set_other by done ]).
Qed.

End Dispatcher.

(** ** Further properties of the unwrapper *)

Section UnwrapperMore.

Context `{env : Environment}.

Implicit Types (xml_response service_name : string) (xml_dict body : dict).

Lemma unwrap_soap_body_truthy xml_response soap_body v :
  unwrap_soap_body xml_response soap_body = inr v -> Py.truthy v = true.
Proof.
  unfold unwrap_soap_body.
  destruct (Py.truthy soap_body) eqn:Ht; cbn [negb]; [|by intros [= <-]].
  destruct soap_body as [|t|l|d]; try done. cbn.
  destruct (Py.truthy (scan_items d VNone)) eqn:E; by intros [= <-].
Qed.

(** X1: whatever the text and whatever the parser does, the unwrapper
    returns a truthy object: the raw-text mapping, a non-empty body mapping
    or a truthy payload, never [None] and never an empty string, list or
    mapping. *)
Theorem X1_result_is_truthy xml_response service_name :
  Py.truthy (_parse_soap_response xml_response service_name) = true.
Proof.
  unfold _parse_soap_response, parse_soap_response_try.
  destruct (xmltodict_parse xml_response) as [e|xml_dict]; [done|].
  unfold mbind, result_bind.
  destruct (scan_envelope_keys xml_dict ENVELOPE_KEYS VNone) as [e|soap_body];
    [done|].
  destruct (unwrap_soap_body xml_response soap_body) as [e|v] eqn:E; [done|].
  by eapply unwrap_soap_body_truthy.
Qed.

(** X2: text that the parser rejects, and a document in which no envelope
    spelling leads to a mapping (no such key at the top, or an envelope that
    is empty or text), end in the raw-text mapping. *)
Theorem X2_unrecognised_is_raw xml_response service_name :
  (exists e, xmltodict_parse xml_response = inl e) \/
  (exists xml_dict,
     xmltodict_parse xml_response = inr xml_dict /\
     forall key envelope, key ∈ ENVELOPE_KEYS ->
       Py.dict_get key xml_dict = Some envelope -> Py.is_dict envelope = false) ->
  _parse_soap_response xml_response service_name = raw_response xml_response.
Proof.
  intros [[e He] | (xml_dict & Hp & Hno)].
  - eapply parse_soap_response_raised. unfold parse_soap_response_try.
    by rewrite He.
  - rewrite (parse_soap_response_unfold _ _ _ Hp).
    destruct (scan_envelope_keys xml_dict ENVELOPE_KEYS VNone) as [e|v] eqn:Hscan;
      [done|].
    apply unwrap_or_raw_falsy.
    eapply (scan_envelope_keys_falsy xml_dict ENVELOPE_KEYS VNone); [done| |done].
    intros key envelope b Hkey Hget Hb.
    specialize (Hno key envelope Hkey Hget). by destruct envelope.
Qed.

Lemma offers_nothing_payload entry :
  offers_nothing entry -> Spec.offers_payload entry = false.
Proof.
  destruct entry as [key v]. unfold offers_nothing, Spec.offers_payload.
  cbn [fst snd]. destruct v as [|t|l|d]; try done.
  intros H. destruct (H d eq_refl) as (H1 & H2 & H3).
  unfold Spec.payload_in_entry. by rewrite H1, H2, H3.
Qed.

Lemma located_payload_pass (pre body : dict) :
  Forall offers_nothing pre ->
  Spec.located_payload (pre ++ body) = Spec.located_payload body.
Proof.
  unfold Spec.located_payload.
  induction 1 as [|entry pre Hentry _ IH]; [done|].
  cbn [app List.find]. by rewrite (offers_nothing_payload _ Hentry).
Qed.

Lemma located_payload_nothing body :
  Forall offers_nothing body -> Spec.located_payload body = None.
Proof.
  intros H. rewrite <- (app_nil_r body). by rewrite located_payload_pass.
Qed.

Lemma located_payload_entry (key : string) (d rest : dict) :
  Spec.located_payload ((key, VDict d) :: rest) =
    match Spec.payload_in_entry key d with
    | Some payload => Some payload
    | None => Spec.located_payload rest
    end.
Proof.
  unfold Spec.located_payload. cbn [List.find].
  unfold Spec.offers_payload at 1. cbn [fst snd].
  destruct (Spec.payload_in_entry key d) eqn:E; [by rewrite E | done].
Qed.

(** X3: when the first entry of the body in which the loop finds anything is
    a mapping without "Result" but with "ResponseValue", the value under
    "ResponseValue" is returned if it is truthy, the body mapping if not. *)
Theorem X3_response_value xml_response service_name xml_dict
    (body pre : dict) (key : string) (d rest : dict) (r : value) :
  xmltodict_parse xml_response = inr xml_dict ->
  scan_envelope_keys xml_dict ENVELOPE_KEYS VNone = inr (VDict body) ->
  body = (pre ++ (key, VDict d) :: rest)%list ->
  Forall offers_nothing pre ->
  Py.dict_get "Result" d = None ->
  Py.dict_get "ResponseValue" d = Some r ->
  _parse_soap_response xml_response service_name =
    if Py.truthy r then r else VDict body.
Proof.
  intros Hp Hscan Hbody Hpre H1 H2.
  rewrite (parse_soap_response_of_body _ _ xml_dict body Hp Hscan)
    by (subst body; by destruct pre).
  subst body. rewrite (located_payload_pass _ _ Hpre), located_payload_entry.
  unfold Spec.payload_in_entry. by rewrite H1, H2.
Qed.

(** X4: when that entry is a mapping with neither key and its own key
    contains "Response", the whole value of the entry is returned (the body
    mapping if that value is an empty mapping). *)
Theorem X4_response_entry xml_response service_name xml_dict
    (body pre : dict) (key : string) (d rest : dict) :
  xmltodict_parse xml_response = inr xml_dict ->
  scan_envelope_keys xml_dict ENVELOPE_KEYS VNone = inr (VDict body) ->
  body = (pre ++ (key, VDict d) :: rest)%list ->
  Forall offers_nothing pre ->
  Py.dict_get "Result" d = None ->
  Py.dict_get "ResponseValue" d = None ->
  Str.contains "Response" key = true ->
  _parse_soap_response xml_response service_name =
    if Py.truthy (VDict d) then VDict d else VDict body.
Proof.
  intros Hp Hscan Hbody Hpre H1 H2 H3.
  rewrite (parse_soap_response_of_body _ _ xml_dict body Hp Hscan)
    by (subst body; by destruct pre).
  subst body. rewrite (located_payload_pass _ _ Hpre), located_payload_entry.
  unfold Spec.payload_in_entry. by rewrite H1, H2, H3.
Qed.

(** X5: a non-empty body in which the loop finds nothing in any entry (a
    SOAP fault, for one) is returned as it is. *)
Theorem X5_body_returned xml_response service_name xml_dict body :
  xmltodict_parse xml_response = inr xml_dict ->
  scan_envelope_keys xml_dict ENVELOPE_KEYS VNone = inr (VDict body) ->
  body <> [] ->
  Forall offers_nothing body ->
  _parse_soap_response xml_response service_name = VDict body.
Proof.
  intros Hp Hscan Hne Hall.
  rewrite (parse_soap_response_of_body _ _ xml_dict body Hp Hscan Hne).
  by rewrite (located_payload_nothing _ Hall).
Qed.

End UnwrapperMore.

(** ** Further properties of the dispatcher *)

Section DispatcherMore.

Context `{env : Environment}.

Implicit Types (self : SherpaClient) (service_name data : string)
  (soap_envelope : Py.pystr) (s : State).

(** X6: when the envelope has been encoded, a first response whose status is
    no client or server error ends the call: one request has been sent,
    nothing has been slept, and the result is the unwrapped text, also when
    the text cannot be parsed. *)
Theorem X6_first_response_is_final self service_name soap_envelope data s
    response w :
  Py.encode_utf8 soap_envelope = inr data ->
  session_post (target_url (base_url self)) (attempt_headers service_name s)
    data (timeout self) (world s) = (inr response, w) ->
  ~ 400 <= status_code response < 600 ->
  call_soap_service self service_name soap_envelope s =
    (inr (_parse_soap_response (text response) service_name),
     mkState (attempt_headers service_name s) w
       (sent s ++ [attempt_request self service_name data s])
       (slept s)).
Proof.
  intros Henc Hpost Hst. unfold call_soap_service, retry.
  apply retrying_first_success.
  rewrite call_soap_service_once_run. cbn zeta. rewrite Henc, Hpost.
  destruct ((400 <=? status_code response) && (status_code response <? 600))
    eqn:E; [|done].
  apply andb_true_iff in E as [H1%Z.leb_le H2%Z.ltb_lt]. lia.
Qed.

(** The only exception of [encode] is UnicodeEncodeError. *)
Lemma encode_utf8_raises soap_envelope e :
  Py.encode_utf8 soap_envelope = inl e -> e = UnicodeEncodeError.
Proof.
  induction soap_envelope as [|cp rest IH]; cbn [Py.encode_utf8]; [done|].
  unfold mbind, result_bind.
  destruct (Py.encode_code_point cp) as [e0|head] eqn:Hcp.
  - intros [= <-]. unfold Py.encode_code_point in Hcp.
    repeat match type of Hcp with
           | (if ?b then _ else _) = _ => destruct b
           end; by inversion Hcp.
  - destruct (Py.encode_utf8 rest) as [e1|tail]; [|done].
    intros [= <-]. by apply IH.
Qed.

(** X7: what a call raises is a RetryError, and the exception it holds is
    the UnicodeEncodeError of an envelope that cannot be encoded, was raised
    by the transport, or is the HTTPError of a response with a status from
    400 to 599; no exception of the unwrapper leaves the call. *)
Theorem X7_what_is_raised self service_name soap_envelope s x :
  fst (call_soap_service self service_name soap_envelope s) = inl x ->
  exists e,
    x = RetryError e /\
    ((e = UnicodeEncodeError /\ Py.encode_utf8 soap_envelope = inl e) \/
     (exists data s0 w,
        Py.encode_utf8 soap_envelope = inr data /\
        session_post (target_url (base_url self)) (attempt_headers service_name s0)
          data (timeout self) (world s0) = (inl e, w)) \/
     (exists response,
        e = HTTPError response /\ 400 <= status_code response < 600)).
Proof.
  intros Hx.
  destruct (call_soap_service_outcome self service_name soap_envelope s)
    as (attempts & _ & _ & _ & [(v & s0 & _ & Hr) | (_ & e & s0 & Hrun & Hr)]).
  { rewrite Hr in Hx. discriminate. }
  rewrite Hr in Hx. injection Hx as <-. exists e. split; [done|].
  rewrite call_soap_service_once_run in Hrun. cbn zeta in Hrun.
  destruct (Py.encode_utf8 soap_envelope) as [e0|data] eqn:Henc.
  { injection Hrun as <- _. left. split; [by eapply encode_utf8_raises | done]. }
  destruct (session_post _ _ _ _ (world s0)) as [[e'|response] w] eqn:Hpost.
  - injection Hrun as <- _. right. left. by exists data, s0, w.
  - destruct ((400 <=? status_code response) && (status_code response <? 600))
      eqn:E; [|discriminate].
    injection Hrun as <- _. right. right. exists response. split; [done|].
    apply andb_true_iff in E as [H1%Z.leb_le H2%Z.ltb_lt]. lia.
Qed.

(** An envelope that cannot be encoded fails every attempt. *)
Lemma call_soap_service_once_unencodable self service_name soap_envelope s e :
  Py.encode_utf8 soap_envelope = inl e ->
  fst (call_soap_service_once self service_name soap_envelope s) = inl e.
Proof.
  intros Henc. rewrite call_soap_service_once_run. cbn zeta. by rewrite Henc.
Qed.

(** X8: when the envelope can be encoded, a call hands between one and three
    requests to the transport, and they are one and the same request: the
    same URL, the headers of the session with the action of this call, the
    UTF-8 bytes of the envelope, and the timeout of the client.  When the
    envelope cannot be encoded, no request is made. *)
Theorem X8_same_request_each_time self service_name soap_envelope s :
  let s' := snd (call_soap_service self service_name soap_envelope s) in
  exists requests,
    sent s' = (sent s ++ requests)%list /\
    match Py.encode_utf8 soap_envelope with
    | inr data =>
        (1 <= length requests <= 3)%nat /\
        Forall (fun req =>
                  req = mkRequest (target_url (base_url self))
                          (Headers.set "SOAPAction" (soap_action service_name)
                             (headers s))
                          data (timeout self))
          requests
    | inl _ => requests = []
    end.
Proof.
  intros s'. subst s'.
  destruct (call_soap_service_trace self service_name soap_envelope s)
    as (_ & requests & Hsent & Hall).
  destruct (call_soap_service_outcome self service_name soap_envelope s)
    as (attempts & Hn & Hlen & _).
  exists requests. split; [done|].
  unfold attempt_requests in Hall. unfold requests_per_attempt in Hlen.
  rewrite Hsent, length_app in Hlen.
  destruct (Py.encode_utf8 soap_envelope) as [e|data].
  - destruct requests as [|req requests]; [done|].
    apply Forall_cons in Hall as [Hreq _]. by apply elem_of_nil in Hreq.
  - split; [lia|].
    eapply Forall_impl; [exact Hall|]. intros req Hreq.
    by apply list_elem_of_singleton in Hreq.
Qed.

(** X9: a call sleeps once after each failed attempt but the last, 4 seconds
    each time: never more than twice, 8 seconds in all.  With an envelope
    that can be encoded the requests are one more than the sleeps; with one
    that cannot, the call sleeps twice and makes no request. *)
Theorem X9_sleeps self service_name soap_envelope s :
  let s' := snd (call_soap_service self service_name soap_envelope s) in
  exists n : nat,
    (n <= 2)%nat /\
    slept s' = (slept s ++ replicate n 4)%list /\
    match Py.encode_utf8 soap_envelope with
    | inr _ => length (sent s') = (length (sent s) + S n)%nat
    | inl _ => n = 2%nat /\ length (sent s') = length (sent s)
    end.
Proof.
  intros s'. subst s'.
  destruct (call_soap_service_outcome self service_name soap_envelope s)
    as (attempts & Hn & Hlen & Hslept & Hout).
  exists (attempts - 1)%nat. split; [lia|]. split.
  { rewrite Hslept. f_equal.
    assert (attempts = 1 \/ attempts = 2 \/ attempts = 3)%nat as [->|[->| ->]]
      by lia; reflexivity. }
  unfold requests_per_attempt in Hlen.
  destruct (Py.encode_utf8 soap_envelope) as [e|data] eqn:Henc; [|lia].
  split; [|lia].
  destruct Hout as [(v & s0 & Hrun & _) | (-> & _)]; [|done].
  pose proof (call_soap_service_once_unencodable self service_name
                soap_envelope s0 e Henc) as Hfail.
  rewrite Hrun in Hfail. discriminate.
Qed.

(** X13: after two calls in a row the session carries the action of the
    second call and, apart from that header, what it carried before the
    first. *)
Theorem X13_last_action_wins self name1 envelope1 name2 envelope2 s :
  let s1 := snd (call_soap_service self name1 envelope1 s) in
  let s2 := snd (call_soap_service self name2 envelope2 s1) in
  headers s2 = Headers.set "SOAPAction" (soap_action name2) (headers s).
Proof.
  intros s1 s2. subst s1 s2.
  destruct (call_soap_service_trace self name2 envelope2
              (snd (call_soap_service self name1 envelope1 s))) as (-> & _).
  destruct (call_soap_service_trace self name1 envelope1 s) as (H1 & _).
  unfold attempt_headers, Headers.set in *. rewrite H1. apply insert_insert_eq.
Qed.

End DispatcherMore.

(** ** Further properties of the URL, the headers and the log line *)

Section Texts.

Lemma target_url_no_query (base : string) :
  Str.has_char "?" (target_url base) = false.
Proof.
  unfold target_url.
  pose proof (split_head_no_sep "?" (Str.replace base "?wsdl" "")) as Hs.
  set (url := Str.split_head _ _) in *.
  destruct (Str.endswith url ".asmx"); cbn [negb]; [done|].
  by rewrite has_char_app, Hs.
Qed.

Lemma target_url_endswith (base : string) :
  Str.endswith (target_url base) ".asmx" = true.
Proof.
  unfold target_url. set (url := Str.split_head _ _).
  destruct (Str.endswith url ".asmx") eqn:E; cbn [negb]; [done|].
  by apply endswith_app.
Qed.

(** X10: whatever the base URL, the request goes to a URL that ends in
    ".asmx". *)
Theorem X10_target_ends_in_asmx (base : string) :
  Str.endswith (target_url base) ".asmx" = true.
Proof. apply target_url_endswith. Qed.

(** X11: the clean-up of the URL is idempotent: a target URL given back as
    base URL is left as it is. *)
Theorem X11_target_url_idempotent (base : string) :
  target_url (target_url base) = target_url base.
Proof.
  unfold target_url at 1.
  rewrite (stripped_plain _ (target_url_no_query base)).
  by rewrite target_url_endswith.
Qed.

(** X12: after construction a lookup under any (ASCII) spelling of one of the
    five names gives the fixed value, also when the fresh session had that header
    under another spelling, and a lookup under any other name gives what the
    fresh session had. *)
Theorem X12_headers_at_construction (defaults : Headers.t) (name : string) :
  Str.is_ascii name = true ->
  (Str.lower name = "content-type" ->
   Headers.get name (init_headers defaults) =
     Some "application/soap+xml; charset=utf-8") /\
  (Str.lower name = "user-agent" ->
   Headers.get name (init_headers defaults) = Some "PostmanRuntime/7.32.3") /\
  (Str.lower name = "accept" ->
   Headers.get name (init_headers defaults) = Some "*/*") /\
  (Str.lower name = "accept-encoding" ->
   Headers.get name (init_headers defaults) = Some "gzip, deflate, br") /\
  (Str.lower name = "connection" ->
   Headers.get name (init_headers defaults) = Some "keep-alive") /\
  (Str.lower name ∉ ["content-type"; "user-agent"; "accept"; "accept-encoding";
                     "connection"] ->
   Headers.get name (init_headers defaults) = Headers.get name defaults).
Proof.
  intros _. unfold init_headers, Headers.get, Headers.set.
  change (Str.lower "Connection") with "connection".
  change (Str.lower "Accept-Encoding") with "accept-encoding".
  change (Str.lower "Accept") with "accept".
  change (Str.lower "User-Agent") with "user-agent".
  change (Str.lower "Content-Type") with "content-type".
  repeat split; try (intros ->; by simplify_map_eq).
  intros Hname.
  rewrite !lookup_insert_ne; [done|..]; intros Heq; apply Hname;
    rewrite <- Heq; repeat constructor.
Qed.

Lemma length_append (s t : string) :
  String.length (s +:+ t) = (String.length s + String.length t)%nat.
Proof.
  induction s as [|c s IH]; [done|].
  change (String c s +:+ t) with (String c (s +:+ t)). cbn. by rewrite IH.
Qed.

Lemma append_cancel_l (s t t' : string) : s +:+ t = s +:+ t' -> t = t'.
Proof.
  induction s as [|c s IH]; [done|].
  change (String c s +:+ ?x) with (String c (s +:+ x)). intros [= H]. auto.
Qed.

Lemma append_cancel_r (s s' t : string) : s +:+ t = s' +:+ t -> s = s'.
Proof.
  revert s'. induction s as [|c s IH]; intros [|c' s'] H.
  - done.
  - apply (f_equal String.length) in H. rewrite !length_append in H.
    cbn in H. lia.
  - apply (f_equal String.length) in H. rewrite !length_append in H.
    cbn in H. lia.
  - change (String ?a ?x +:+ t) with (String a (x +:+ t)) in H.
    injection H as -> H. f_equal. by apply IH.
Qed.

(** X14: two different service names never get the same action header. *)
Theorem X14_action_tells_services_apart (name1 name2 : string) :
  name1 <> name2 -> soap_action name1 <> soap_action name2.
Proof.
  intros Hne H. apply Hne. unfold soap_action in H.
  apply append_cancel_l, append_cancel_l in H.
  by apply append_cancel_r in H.
Qed.

(** X15: the debug line for the envelope is a label followed by the first
    2000 code points of the envelope, all of it when it has no more than
    that; the line never exceeds 2034 code points. *)
Theorem X15_envelope_debug_line (soap_envelope : Py.pystr) :
  (length (envelope_debug_line soap_envelope) <= 2034)%nat /\
  exists label shown : Py.pystr,
    envelope_debug_line soap_envelope = (label ++ shown)%list /\
    shown `prefix_of` soap_envelope /\
    length shown = Nat.min 2000 (length soap_envelope).
Proof.
  unfold envelope_debug_line.
  destruct (Nat.ltb_spec 2000 (length soap_envelope)) as [Hlt|Hle].
  - split.
    + rewrite length_app, length_take.
      change (length (Py.str "SOAP envelope (first 2000 chars): ")) with 34%nat.
      lia.
    + eexists _, _. split; [done|]. split; [apply prefix_take|].
      apply length_take.
  - split.
    + rewrite length_app.
      change (length (Py.str "SOAP envelope: ")) with 15%nat. lia.
    + eexists _, _. split; [done|]. split; [done|]. lia.
Qed.

End Texts.

(** ** Concrete runs

    The statements above at the documents and scripts of [Sample], and the
    inputs at which the wording of the specification and the code part. *)

#[local] Abbreviation parse := (@_parse_soap_response Sample.env).
#[local] Abbreviation call :=
  (@call_soap_service Sample.env Sample.client "GetStatus" (Py.str "<e/>")).
#[local] Abbreviation once :=
  (@call_soap_service_once Sample.env Sample.client "GetStatus" (Py.str "<e/>")).

(** C1 at a [Result] with children, answered with status 200. *)
Lemma C1_witness :
  parse Sample.xml_mapping_result "GetStatus" = VDict [("Status", VStr "OK")] /\
  fst (call (Sample.start [inr (mkResponse 200 Sample.xml_mapping_result)])) =
    inr (VDict [("Status", VStr "OK")]).
Proof.
  apply (C1_result_returned (env := Sample.env) Sample.client "GetStatus"
           (Py.str "<e/>") "<e/>"
           (Sample.start [inr (mkResponse 200 Sample.xml_mapping_result)]) []
           Sample.xml_mapping_result
           (Sample.in_envelope (VDict Sample.body_mapping_result))
           [("@xmlns:soap", VStr "http://www.w3.org/2003/05/soap-envelope");
            ("soap:Body", VDict Sample.body_mapping_result)]
           Sample.body_mapping_result [] "GetStatusResponse"
           [("Result", VDict [("Status", VStr "OK")])] []
           (VDict [("Status", VStr "OK")]));
    first [reflexivity | constructor].
Defined.

(** C1 as stated fails at an empty [<Result/>]: the value under "Result" is
    [None], the unwrapper returns the body mapping. *)
Lemma C1_counterexample :
  xmltodict_parse (Environment := Sample.env) Sample.xml_empty_result =
    inr (Sample.in_envelope
           (VDict [("GetStatusResponse", VDict [("Result", VNone)])])) /\
  parse Sample.xml_empty_result "GetStatus" =
    VDict [("GetStatusResponse", VDict [("Result", VNone)])] /\
  parse Sample.xml_empty_result "GetStatus" <> VNone /\
  fst (call (Sample.start [inr (mkResponse 200 Sample.xml_empty_result)])) <>
    inr VNone.
Proof. repeat split; try reflexivity; vm_compute; discriminate. Qed.

(** C2 at [<Result>OK</Result>]: the unwrapper returns the text "OK", a
    [str] and no mapping. *)
Theorem C2_returns_text :
  parse Sample.xml_text_result "GetStatus" = VStr "OK" /\
  Py.is_dict (parse Sample.xml_text_result "GetStatus") = false.
Proof. split; reflexivity. Qed.


(** C4 at a response with status 503. *)
Lemma C4_witness :
  let response := mkResponse 503 Sample.xml_text_result in
  fst (once (Sample.start [inr response])) = inl (HTTPError response).
Proof.
  intros response.
  apply (proj1 (C4_error_status_raises (env := Sample.env) Sample.client
                  "GetStatus" (Py.str "<e/>") "<e/>" (Sample.start [inr response])
                  response [] eq_refl eq_refl)).
  cbn. lia.
Defined.

(** C4 as stated fails at status 304, which is outside 2xx: nothing is
    raised and the body is unwrapped. *)
Lemma C4_counterexample :
  let response := mkResponse 304 Sample.xml_text_result in
  ~ (200 <= status_code response < 300) /\
  fst (once (Sample.start [inr response])) = inr (VStr "OK") /\
  fst (call (Sample.start [inr response])) = inr (VStr "OK").
Proof. repeat split; try reflexivity. cbn. lia. Qed.

(** C5 at a document with the usual envelope. *)
Lemma C5_witness :
  Spec.one_envelope (Sample.in_envelope (VDict Sample.body_text_result)) /\
  parse Sample.xml_text_result "GetStatus" =
    unwrap_or_raw Sample.xml_text_result (VDict Sample.body_text_result).
Proof.
  assert (H : Spec.one_envelope (Sample.in_envelope (VDict Sample.body_text_result))).
  { apply single_root_one_envelope. by eexists _, _. }
  split; [exact H|].
  exact (C5_envelope_and_body_lookup (env := Sample.env) Sample.xml_text_result
           "GetStatus" _ eq_refl H).
Defined.

(** C6 at a body whose first mapping-valued entry offers no payload. *)
Lemma C6_witness :
  parse Sample.xml_two_entries "GetStatus" = VStr "OK".
Proof.
  apply (C6_payload_lookup (env := Sample.env) Sample.xml_two_entries "GetStatus"
           (Sample.in_envelope (VDict Sample.body_two_entries))
           Sample.body_two_entries); [reflexivity | reflexivity | discriminate].
Defined.

(** C6 as stated fails twice: a first mapping-valued entry without payload
    does not end the scan, and a payload that is [None] is not returned. *)
Lemma C6_counterexample :
  (parse Sample.xml_two_entries "GetStatus" = VStr "OK" /\
   Spec.claimed_unwrap Sample.body_two_entries = VDict Sample.body_two_entries) /\
  (parse Sample.xml_empty_result "GetStatus" = VDict Sample.body_empty_result /\
   Spec.claimed_unwrap Sample.body_empty_result = VNone).
Proof. repeat split; reflexivity. Qed.

(** C7 at the base URL of the sample client. *)
Lemma C7_witness :
  target_url (base_url Sample.client) = "https://sherpa.example/214/Sherpa.asmx".
Proof.
  pose proof (C7_target_url (env := Sample.env) Sample.client "GetStatus"
                (Py.str "<e/>")
                (Sample.start []) "https://sherpa.example/214/Sherpa.asmx" ""
                eq_refl (or_intror (or_introl eq_refl)))
    as (_ & _ & Hkeep & _).
  apply Hkeep. reflexivity.
Defined.

(** C7 as stated fails at a base URL that ends in another ".asmx" page: the
    base without its query does not end in "/Sherpa.asmx", yet nothing is
    appended. *)
Lemma C7_counterexample :
  let base := "https://sherpa.example/214/Other.asmx?wsdl" in
  Str.endswith (Str.split_head base "?") "/Sherpa.asmx" = false /\
  target_url base = "https://sherpa.example/214/Other.asmx" /\
  target_url base <> Spec.claimed_target_url base.
Proof. repeat split; try reflexivity. vm_compute. discriminate. Qed.

(** C8 at a client fresh from construction. *)
Lemma C8_witness :
  let s' := snd (call (Sample.start [inr (mkResponse 200 Sample.xml_text_result)])) in
  Headers.get "accept" (headers s') = Some "*/*" /\
  Headers.get "Content-Type" (headers s') =
    Some "application/soap+xml; charset=utf-8".
Proof.
  intros s'.
  pose proof (C8_soap_action_header (env := Sample.env) Sample.client "GetStatus"
                (Py.str "<e/>")
                (Sample.start [inr (mkResponse 200 Sample.xml_text_result)]))
    as (_ & Hframe & _ & Hinit).
  split.
  - subst s'. rewrite Hframe; [reflexivity | reflexivity | discriminate].
  - apply (Hinit ∅). reflexivity.
Defined.

(** C9 at an empty [<Result/>]. *)
Lemma C9_witness :
  parse Sample.xml_empty_result "GetStatus" = VDict Sample.body_empty_result.
Proof.
  apply (proj1 (C9_falsy_payload_discarded (env := Sample.env)
                  Sample.xml_empty_result "GetStatus"
                  (Sample.in_envelope (VDict Sample.body_empty_result))
                  (VDict Sample.body_empty_result) eq_refl eq_refl eq_refl)
           Sample.body_empty_result VNone); reflexivity.
Defined.

(** C10 at an empty [<soap:Body/>]. *)
Lemma C10_witness :
  Spec.bodies_falsy (Sample.in_envelope VNone) /\
  parse Sample.xml_empty_body "GetStatus" = raw_response Sample.xml_empty_body.
Proof.
  assert (H : Spec.bodies_falsy (Sample.in_envelope VNone)).
  { intros key envelope b Hkey Hget Hb.
    apply list_elem_of_In in Hkey. cbn in Hkey.
    destruct Hkey as [<-|[<-|[<-|[]]]]; cbn in Hget; try discriminate.
    injection Hget as <-. cbn in Hb. by injection Hb as <-. }
  split; [exact H|].
  exact (C10_falsy_body_is_not_found (env := Sample.env) Sample.xml_empty_body
           "GetStatus" _ eq_refl H).
Defined.

(** *** The examples of the specification *)

Example run_response_value :
  parse Sample.xml_response_value "AddOrder" = VStr "17".
Proof. reflexivity. Qed.

Example run_no_envelope :
  parse Sample.xml_no_envelope "GetStatus" = raw_response Sample.xml_no_envelope.
Proof. reflexivity. Qed.

Example run_malformed :
  parse "<soap:Envelope>" "GetStatus" = raw_response "<soap:Envelope>".
Proof. reflexivity. Qed.

Example run_third_attempt_succeeds :
  let outcomes : Sample.script :=
    [inl (External "Timeout"); inr (mkResponse 503 "");
     inr (mkResponse 200 Sample.xml_mapping_result)] in
  fst (call (Sample.start outcomes)) = inr (VDict [("Status", VStr "OK")]) /\
  slept (snd (call (Sample.start outcomes))) = [4; 4] /\
  map req_url (sent (snd (call (Sample.start outcomes)))) =
    ["https://sherpa.example/214/Sherpa.asmx";
     "https://sherpa.example/214/Sherpa.asmx";
     "https://sherpa.example/214/Sherpa.asmx"].
Proof. repeat split; reflexivity. Qed.

Example run_lone_surrogate :
  let envelope : Py.pystr := [0x3C; 0xD800; 0x3E]%N in
  let s' :=
    snd (@call_soap_service Sample.env Sample.client "GetStatus" envelope
           (Sample.start [inr (mkResponse 200 Sample.xml_text_result)])) in
  fst (@call_soap_service Sample.env Sample.client "GetStatus" envelope
         (Sample.start [inr (mkResponse 200 Sample.xml_text_result)])) =
    inl (RetryError UnicodeEncodeError) /\
  slept s' = [4; 4] /\ sent s' = [].
Proof. repeat split; reflexivity. Qed.

Example run_euro_sign_is_three_bytes :
  Py.encode_utf8 [0x20AC%N] =
    inr (String (ascii_of_N 0xE2) (String (ascii_of_N 0x82)
           (String (ascii_of_N 0xAC) EmptyString))) /\
  length (envelope_debug_line (replicate 667 0x20AC%N)) = 682%nat.
Proof. split; reflexivity. Qed.

Example run_header_names_ignore_case :
  Headers.get "user-agent"
    (init_headers (Headers.set "USER-AGENT" "python-requests/2.31" ∅)) =
    Some "PostmanRuntime/7.32.3" /\
  size (init_headers (Headers.set "USER-AGENT" "python-requests/2.31" ∅)) = 5%nat.
Proof. split; reflexivity. Qed.

Example run_url_without_suffix :
  target_url "https://sherpa.example/214" = "https://sherpa.example/214/Sherpa.asmx".
Proof. reflexivity. Qed.

Example run_query_starting_with_wsdl :
  target_url "https://sherpa.example/214?wsdl=1" =
    "https://sherpa.example/214=1/Sherpa.asmx".
Proof. reflexivity. Qed.

(** *** The further properties at concrete inputs *)

(** X2 at a page that is no envelope. *)
Lemma X2_witness :
  parse Sample.xml_no_envelope "GetStatus" = raw_response Sample.xml_no_envelope.
Proof.
  apply (X2_unrecognised_is_raw (env := Sample.env)).
  right. exists Sample.doc_no_envelope. split; [reflexivity|].
  intros key envelope Hkey Hget.
  apply list_elem_of_In in Hkey. cbn in Hkey.
  destruct Hkey as [<-|[<-|[<-|[]]]]; discriminate Hget.
Defined.

(** X3 at a response with [ResponseValue]. *)
Lemma X3_witness :
  @_parse_soap_response Sample2.env Sample.xml_response_value "AddOrder" =
    VStr "17".
Proof.
  apply (X3_response_value (env := Sample2.env) Sample.xml_response_value
           "AddOrder" (Sample.in_envelope (VDict Sample.body_response_value))
           Sample.body_response_value [] "AddOrderResponse"
           [("ResponseValue", VStr "17")] [] (VStr "17"));
    first [reflexivity | constructor].
Defined.

(** X4 at a response whose entry holds the data itself. *)
Lemma X4_witness :
  @_parse_soap_response Sample2.env Sample2.xml_direct "GetStock" =
    VDict [("Item", VStr "A1"); ("Amount", VStr "3")].
Proof.
  apply (X4_response_entry (env := Sample2.env) Sample2.xml_direct "GetStock"
           (Sample.in_envelope (VDict Sample2.body_direct))
           Sample2.body_direct [] "GetStockResponse"
           [("Item", VStr "A1"); ("Amount", VStr "3")] []);
    first [reflexivity | constructor].
Defined.

(** X5 at a SOAP fault. *)
Lemma X5_witness :
  Forall offers_nothing Sample2.body_fault /\
  @_parse_soap_response Sample2.env Sample2.xml_fault "GetStock" =
    VDict Sample2.body_fault.
Proof.
  assert (H : Forall offers_nothing Sample2.body_fault).
  { unfold Sample2.body_fault. constructor; [|constructor].
    intros d [= <-]. repeat split. }
  split; [exact H|].
  apply (X5_body_returned (env := Sample2.env) Sample2.xml_fault "GetStock"
           (Sample.in_envelope (VDict Sample2.body_fault)) Sample2.body_fault);
    [reflexivity | reflexivity | discriminate | exact H].
Defined.

(** X6 at a first response with status 204 and no text. *)
Lemma X6_witness :
  fst (call (Sample.start [inr (mkResponse 204 "")])) = inr (raw_response "") /\
  slept (snd (call (Sample.start [inr (mkResponse 204 "")]))) = [] /\
  length (sent (snd (call (Sample.start [inr (mkResponse 204 "")])))) = 1%nat.
Proof.
  rewrite (X6_first_response_is_final (env := Sample.env) Sample.client
             "GetStatus" (Py.str "<e/>") "<e/>"
             (Sample.start [inr (mkResponse 204 "")])
             (mkResponse 204 "") [] eq_refl eq_refl); [|cbn; lia].
  repeat split.
Defined.

(** X7 at a network that is down for all three attempts. *)
Lemma X7_witness :
  exists e,
    RetryError (External "ConnectionError") = RetryError e /\
    ((e = UnicodeEncodeError /\ Py.encode_utf8 (Py.str "<e/>") = inl e) \/
     (exists data s0 w,
        Py.encode_utf8 (Py.str "<e/>") = inr data /\
        session_post (Environment := Sample.env)
          (target_url (base_url Sample.client)) (attempt_headers "GetStatus" s0)
          data (timeout Sample.client) (world s0) = (inl e, w)) \/
     (exists response,
        e = HTTPError response /\ 400 <= status_code response < 600)).
Proof.
  apply (X7_what_is_raised (env := Sample.env) Sample.client "GetStatus"
           (Py.str "<e/>") (Sample.start [])).
  reflexivity.
Defined.

(** X12 at a session that came with its own user agent: the spelling of the
    name does not matter, and no action header is there yet. *)
Lemma X12_witness :
  let defaults := Headers.set "user-agent" "python-requests/2.31" ∅ in
  Headers.get "USER-AGENT" (init_headers defaults) = Some "PostmanRuntime/7.32.3" /\
  Headers.get "SOAPAction" (init_headers defaults) = None.
Proof.
  intros defaults. split.
  - apply (X12_headers_at_construction defaults "USER-AGENT"); reflexivity.
  - change None with (Headers.get "SOAPAction" defaults).
    apply (X12_headers_at_construction defaults "SOAPAction"); [reflexivity|].
    intros H. apply list_elem_of_In in H. cbn in H.
    destruct H as [H|[H|[H|[H|[H|[]]]]]]; discriminate H.
Defined.

(** X14 at two services. *)
Lemma X14_witness : soap_action "GetStatus" <> soap_action "AddOrder".
Proof. apply X14_action_tells_services_apart. discriminate. Defined.
